(** * review8: automatic review of PEP-8-only changes between two branches

    A shallow embedding of [review8.py] and the properties of its scoped
    resources (temporary directory, working directory, checked-out
    revision), of its command runner and of its diff-status parser.

    The script is an orchestration of three external programs (git,
    flake8, pydiff) run through [/bin/sh].  The programs are parameters of
    the development (class [Platform]); the Python code around them is
    embedded function by function, in a state-and-exception monad over the
    process state: the working directory, the disk, and the log of the
    system calls made so far. *)

From Stdlib Require Import String Ascii List ZArith Lia Bool.
From Stdlib Require Import DecimalString DecimalZ.
Import ListNotations.
Open Scope string_scope.
Open Scope list_scope.

(* ================================================================== *)
(** ** Python byte strings *)
(* ================================================================== *)

Module PyStr.

(** The quote character, for messages that contain one. *)
Definition dquote : string := String (ascii_of_nat 34) EmptyString.

(** The line feed, ['\n']. *)
Definition LF : ascii := ascii_of_nat 10.

(** [str.isspace] on a byte: tab, line feed, vertical tab, form feed,
    carriage return and space. *)
Definition is_space (c : ascii) : bool :=
  match nat_of_ascii c with
  | 9 | 10 | 11 | 12 | 13 | 32 => true
  | _ => false
  end.

(** [s.lstrip()] *)
Fixpoint lstrip (s : string) : string :=
  match s with
  | EmptyString => EmptyString
  | String c s' => if is_space c then lstrip s' else s
  end.

(** [s.rstrip()] *)
Fixpoint rstrip (s : string) : string :=
  match s with
  | EmptyString => EmptyString
  | String c s' =>
      match rstrip s' with
      | EmptyString => if is_space c then EmptyString else String c EmptyString
      | r => String c r
      end
  end.

(** [s.strip()] *)
Definition strip (s : string) : string := rstrip (lstrip s).

(** [s.split(sep)] for a one-character separator.  The result is never
    empty: [''.split('\n') == ['']]. *)
Fixpoint split (sep : ascii) (s : string) : list string :=
  match s with
  | EmptyString => [EmptyString]
  | String c s' =>
      if Ascii.eqb c sep then EmptyString :: split sep s'
      else match split sep s' with
           | h :: t => String c h :: t
           | [] => [String c EmptyString]
           end
  end.

(** [s[0]]: the first character as a string of length one; [None] stands
    for the [IndexError] of an empty string. *)
Definition item0 (s : string) : option string :=
  match s with
  | EmptyString => None
  | String c _ => Some (String c EmptyString)
  end.

(** [s[1:]]; slicing never raises. *)
Definition slice1 (s : string) : string :=
  match s with
  | EmptyString => EmptyString
  | String _ s' => s'
  end.

(** [s.startswith(p)] *)
Fixpoint startswith (p s : string) : bool :=
  match p, s with
  | EmptyString, _ => true
  | String a p', String b s' => Ascii.eqb a b && startswith p' s'
  | String _ _, EmptyString => false
  end.

(** [s.endswith('/')] and the like, for a one-character suffix. *)
Fixpoint endswith_char (c : ascii) (s : string) : bool :=
  match s with
  | EmptyString => false
  | String a EmptyString => Ascii.eqb a c
  | String _ s' => endswith_char c s'
  end.

(** [s[:-len(suffix)]] when [s.endswith(suffix)]. *)
Fixpoint strip_suffix (suffix s : string) : option string :=
  if String.eqb s suffix then Some EmptyString
  else match s with
       | EmptyString => None
       | String c s' => option_map (String c) (strip_suffix suffix s')
       end.

(** [s.count('\n')] *)
Fixpoint count_char (c : ascii) (s : string) : nat :=
  match s with
  | EmptyString => 0
  | String a s' => (if Ascii.eqb a c then 1 else 0) + count_char c s'
  end.

(** [str(n)] for an integer. *)
Definition str_of_int (n : Z) : string := NilZero.string_of_int (Z.to_int n).

(** [int(s)]: surrounding white space is dropped, then an optional sign
    and decimal digits; [None] stands for [ValueError]. *)
Definition int_of_str (s : string) : option Z :=
  match strip s with
  | String "+" digits =>
      option_map (fun u => Z.of_int (Decimal.Pos u)) (NilZero.uint_of_string digits)
  | t => option_map Z.of_int (NilZero.int_of_string t)
  end.

(** A string without white space. *)
Fixpoint solid (s : string) : bool :=
  match s with
  | EmptyString => true
  | String c s' => negb (is_space c) && solid s'
  end.

(** [sep.join(parts)] *)
Fixpoint join (sep : string) (parts : list string) : string :=
  match parts with
  | [] => EmptyString
  | [p] => p
  | p :: rest => p ++ sep ++ join sep rest
  end.

End PyStr.

(* ================================================================== *)
(** ** POSIX paths ([os.path]) *)
(* ================================================================== *)

Module PosixPath.
Import PyStr.

(** [os.path.join(a, b)] *)
Definition join (a b : string) : string :=
  if startswith "/" b then b
  else if (String.eqb a EmptyString || endswith_char "/" a)%bool then a ++ b
  else a ++ "/" ++ b.

(** [os.path.basename(p)]: what follows the last slash. *)
Fixpoint basename (p : string) : string :=
  match p with
  | EmptyString => EmptyString
  | String c p' =>
      if Ascii.eqb c "/" then basename p'
      else if existsb (Ascii.eqb "/") (list_ascii_of_string p') then basename p'
      else p
  end.

(** [os.path.isabs(p)] *)
Definition isabs (p : string) : bool := startswith "/" p.

(** The names a path walks through from the root: empty names (doubled
    or trailing slashes) and [.] are skipped.  [..] and symbolic links are
    not modelled. *)
Definition components (p : string) : list string :=
  filter (fun c => negb (String.eqb c EmptyString || String.eqb c ".")%bool)
         (split "/" p).

End PosixPath.

(* ================================================================== *)
(** ** Command lines the shell takes word for word *)
(* ================================================================== *)

Module Shell.
Import PyStr.

(** The characters [/bin/sh] takes for themselves wherever they stand in
    a word: letters, digits and a few signs.  Quotes, the backslash,
    [$], [#], [~], [=], the glob characters and the operators ([|], [&],
    [;], [<], [>], parentheses, braces) are not among them. *)
Definition literal (c : ascii) : bool :=
  let n := nat_of_ascii c in
  ((Nat.leb 48 n && Nat.leb n 57) || (Nat.leb 65 n && Nat.leb n 90)
   || (Nat.leb 97 n && Nat.leb n 122)
   || existsb (Ascii.eqb c) ["/"; "."; "_"; "-"; "+"; ","; ":"; "@"; "%"]%char)%bool.

(** A line of such characters and blanks. *)
Fixpoint plain (s : string) : bool :=
  match s with
  | EmptyString => true
  | String c s' => (literal c || Ascii.eqb c " ")%bool && plain s'
  end.

(** The words of a line of blanks and words. *)
Definition words (s : string) : list string :=
  filter (fun w => negb (String.eqb w EmptyString)) (split " " s).

(** The reserved words that are made of literal characters. *)
Definition reserved : list string :=
  ["case"; "coproc"; "do"; "done"; "elif"; "else"; "esac"; "fi"; "for";
   "function"; "if"; "in"; "select"; "then"; "time"; "until"; "while"].

(** A command line that is one simple command with nothing for the
    shell to interpret: literal words, the first of which is no reserved
    word. *)
Definition simple_command (s : string) : bool :=
  plain s
  && match words s with
     | [] => false
     | w :: _ => negb (existsb (String.eqb w) reserved)
     end.

End Shell.

(* ================================================================== *)
(** ** The file system *)
(* ================================================================== *)

Module FS.

(** A directory tree.  A directory lists its entries by name; a path is
    the list of names walked from the root.  Whatever lies under a path
    exists only as long as every directory on the way does. *)
#[warnings="-register-all"]
Inductive node : Type :=
| File (content : string)
| Dir (entries : list (string * node)).

Definition path := list string.

Fixpoint entry (name : string) (es : list (string * node)) : option node :=
  match es with
  | [] => None
  | (k, n) :: es' => if String.eqb k name then Some n else entry name es'
  end.

(** Bind [name] to [v] in a directory listing, or unbind it ([None]). *)
Definition set_entry (name : string) (v : option node)
    (es : list (string * node)) : list (string * node) :=
  match v with Some n => [(name, n)] | None => [] end
  ++ filter (fun e => negb (String.eqb (fst e) name)) es.

Fixpoint lookup (p : path) (n : node) : option node :=
  match p with
  | [] => Some n
  | k :: p' =>
      match n with
      | Dir es => match entry k es with
                  | Some m => lookup p' m
                  | None => None
                  end
      | File _ => None
      end
  end.

Definition isdir (p : path) (n : node) : bool :=
  match lookup p n with Some (Dir _) => true | _ => false end.

(** The content of the regular file at [p]. *)
Definition read (p : path) (n : node) : option string :=
  match lookup p n with Some (File c) => Some c | _ => None end.

(** Replace ([Some]) or remove ([None]) what stands at [p].  Fails
    ([None]) on the root and when the parent of [p] is not a directory. *)
Fixpoint put (p : path) (v : option node) (n : node) : option node :=
  match p with
  | [] => None
  | k :: p' =>
      match n with
      | File _ => None
      | Dir es =>
          match p' with
          | [] => Some (Dir (set_entry k v es))
          | _ :: _ =>
              match entry k es with
              | Some m =>
                  match put p' v m with
                  | Some m' => Some (Dir (set_entry k (Some m') es))
                  | None => None
                  end
              | None => None
              end
          end
      end
  end.

(** Two paths that part ways: neither leads to the other. *)
Fixpoint diverge (p q : path) : bool :=
  match p, q with
  | k :: p', k' :: q' => if String.eqb k k' then diverge p' q' else true
  | _, _ => false
  end.

End FS.

(* ================================================================== *)
(** ** The process: state, exceptions, the platform *)
(* ================================================================== *)

(** The exceptions of the script and of the library calls it makes. *)
Inductive exn : Type :=
| Exception (msg : string)      (* [raise Exception(msg)], line 99 *)
| IndexError                    (* string index out of range *)
| ValueError (text : string)    (* [int()] of something else than a number *)
| OSError (path : string)       (* a file-system call that failed *)
| KeyError (key : string)       (* [template % data]: no such key *)
| TypeError (text : string)     (* [template % data]: wrong kind of value *)
| Raised (tag : string).        (* any other exception, of a caller's block *)

(** The values a substitution mapping may hold (docstring of [execute]). *)
Inductive pyval : Type :=
| PyStr (s : string)
| PyInt (n : Z).

(** What is on disk: the directory tree, and the state the external
    programs keep for themselves (the repository's revisions and its
    checked-out revision among them). *)
Record Disk (Ext : Type) : Type := mkDisk { fs : FS.node; ext : Ext }.
Arguments mkDisk {Ext} _ _.
Arguments fs {Ext} _.
Arguments ext {Ext} _.

(** What the script takes from its environment.
    - [tool command cwd disk]: [/bin/sh -c command] in directory [cwd],
      which for a simple command is the child process the command names;
      its exit status, its standard output and the disk it leaves.  A
      child cannot change the directory of its parent.
    - [percent template data]: Python's [template % data].
    - [tmpname disk]: the name [tempfile.mkdtemp] draws. *)
Class Platform : Type := {
  Ext : Type;
  tool : string -> string -> Disk Ext -> Z * string * Disk Ext;
  percent : string -> list (string * pyval) -> exn + string;
  tmpname : Disk Ext -> string
}.

(** One system call of the process. *)
Inductive event : Type :=
| Spawn (command cwd : string) (status : Z)
| Chdir (path : string)
| Mkdtemp (path : string)
| Rmtree (path : string)
| Copy2 (src dst : string)
| Print (line : string).

Record State `{Platform} : Type := mkState {
  cwd : string;            (* the working directory of the process *)
  disk : Disk Ext;
  trace : list event       (* the calls made so far, oldest first *)
}.
Arguments mkState {_} _ _ _.

Inductive result (A : Type) : Type :=
| Ok (value : A)
| Raise (e : exn).
Arguments Ok {A} _.
Arguments Raise {A} _.

(** A computation: from a state to a value or an exception, and the state
    it leaves.  An exception keeps the state reached when it was raised. *)
Definition M `{Platform} (A : Type) : Type := State -> result A * State.

Definition ret `{Platform} {A} (a : A) : M A := fun s => (Ok a, s).

Definition raise `{Platform} {A} (e : exn) : M A := fun s => (Raise e, s).

Definition bind `{Platform} {A B} (m : M A) (k : A -> M B) : M B :=
  fun s => match m s with
           | (Ok a, s') => k a s'
           | (Raise e, s') => (Raise e, s')
           end.

Declare Scope py_scope.
Delimit Scope py_scope with py.
Notation "x <- m ;; k" := (bind m (fun x => k))
  (at level 61, m at next level, right associativity) : py_scope.
Notation "m ;; k" := (bind m (fun _ => k))
  (at level 61, right associativity) : py_scope.
Open Scope py_scope.

(** [try: body finally: final].  The final block runs on every exit of
    the body; an exception of the final block replaces the outcome of the
    body, otherwise the body's value or exception goes on. *)
Definition try_finally `{Platform} {A} (body : M A) (final : M unit) : M A :=
  fun s => match body s with
           | (r, s1) => match final s1 with
                        | (Ok _, s2) => (r, s2)
                        | (Raise e, s2) => (Raise e, s2)
                        end
           end.

Definition log `{Platform} (e : event) (s : State) : State :=
  mkState (cwd s) (disk s) (trace s ++ [e]).

(* ================================================================== *)
(** ** Library calls of the script *)
(* ================================================================== *)

Section Library.
Context `{Platform}.
Import PyStr.

(** [os.getcwd()] *)
Definition os_getcwd : M string := fun s => (Ok (cwd s), s).

(** [os.chdir(path)]: a relative [path] is taken from the current
    directory; the target must be a directory. *)
Definition os_chdir (path : string) : M unit :=
  fun s =>
    let target := PosixPath.join (cwd s) path in
    let s' := log (Chdir target) s in
    if FS.isdir (PosixPath.components target) (fs (disk s))
    then (Ok tt, mkState target (disk s') (trace s'))
    else (Raise (OSError path), s').

(** [print(line)] *)
Definition print (line : string) : M unit :=
  fun s => (Ok tt, log (Print line) s).

(** [wc -l]: the number of line feeds of its input, on a line. *)
Definition wc_l (text : string) : string :=
  String.append (str_of_int (Z.of_nat (count_char LF text)))
                (String LF EmptyString).

(** [/bin/sh -c command].  The one piece of shell syntax the script
    writes itself is the pipe into [wc -l] (line 104).  When what stands
    before it is a simple command of literal words, the line is that
    pipeline: the producer runs, [wc] counts the lines of its output, and
    the status of the pipeline is the status of its last command, which
    is [wc]'s.  On any other line (a path interpolated into it may hold
    a comment sign, an operator, a parenthesis...) the shell parses
    something else, which is the platform's to say. *)
Definition sh (command cwd : string) (d : Disk Ext) : Z * string * Disk Ext :=
  match strip_suffix " | wc -l" command with
  | Some producer =>
      if Shell.simple_command producer then
        let '(_, out, d') := tool producer cwd d in (0%Z, wc_l out, d')
      else tool command cwd d
  | None => tool command cwd d
  end.

(** [process = subprocess.Popen(command, shell=True, stdout=PIPE)] and
    [process.wait()]: the exit status, with the captured output that
    [process.stdout.read()] returns. *)
Definition subprocess_Popen (command : string) : M (Z * string) :=
  fun s =>
    let '(status, out, d) := sh command (cwd s) (disk s) in
    (Ok (status, out),
     mkState (cwd s) d (trace s ++ [Spawn command (cwd s) status])).

(** [tempfile.gettempdir()] *)
Definition gettempdir : string := "/tmp".

(** [tempfile.mkdtemp()]: a new, empty directory under the temporary
    root, under a name not in use. *)
Definition tempfile_mkdtemp : M string :=
  fun s =>
    let path := PosixPath.join gettempdir (tmpname (disk s)) in
    let p := PosixPath.components path in
    let s' := log (Mkdtemp path) s in
    match FS.lookup p (fs (disk s)) with
    | Some _ => (Raise (OSError path), s')
    | None =>
        match FS.put p (Some (FS.Dir [])) (fs (disk s)) with
        | Some t =>
            (Ok path, mkState (cwd s) (mkDisk t (ext (disk s))) (trace s'))
        | None => (Raise (OSError path), s')
        end
    end.

(** [shutil.rmtree(path)]: removes the directory at [path] with all it
    holds; fails when there is no directory there. *)
Definition shutil_rmtree (path : string) : M unit :=
  fun s =>
    let p := PosixPath.components (PosixPath.join (cwd s) path) in
    let s' := log (Rmtree path) s in
    if FS.isdir p (fs (disk s)) then
      match FS.put p None (fs (disk s)) with
      | Some t => (Ok tt, mkState (cwd s) (mkDisk t (ext (disk s))) (trace s'))
      | None => (Raise (OSError path), s')
      end
    else (Raise (OSError path), s').

(** [shutil.copy2(src, dst)]: [src] must be a regular file; a [dst] that
    is a directory stands for the file of [src]'s name in it; copying a
    file onto itself or onto a directory fails. *)
Definition shutil_copy2 (src dst : string) : M unit :=
  fun s =>
    let tree := fs (disk s) in
    let s' := log (Copy2 src dst) s in
    let psrc := PosixPath.components (PosixPath.join (cwd s) src) in
    let dst' :=
      if FS.isdir (PosixPath.components (PosixPath.join (cwd s) dst)) tree
      then PosixPath.join dst (PosixPath.basename src) else dst in
    let pdst := PosixPath.components (PosixPath.join (cwd s) dst') in
    match FS.read psrc tree with
    | None => (Raise (OSError src), s')
    | Some content =>
        if list_eq_dec string_dec psrc pdst then (Raise (OSError dst'), s')
        else if FS.isdir pdst tree then (Raise (OSError dst'), s')
        else match FS.put pdst (Some (FS.File content)) tree with
             | Some t =>
                 (Ok tt, mkState (cwd s) (mkDisk t (ext (disk s))) (trace s'))
             | None => (Raise (OSError dst'), s')
             end
    end.

(** [repr] of a byte string and of a list of them, as ['{0}'.format]
    prints a list. *)
Definition hex_digit (n : nat) : string :=
  String (nth n (list_ascii_of_string "0123456789abcdef") "0"%char) EmptyString.

Definition repr_char (quote c : ascii) : string :=
  let n := nat_of_ascii c in
  if Ascii.eqb c "\" then "\\"
  else if Ascii.eqb c quote then String "\" (String quote EmptyString)
  else if Nat.eqb n 9 then "\t"
  else if Nat.eqb n 10 then "\n"
  else if Nat.eqb n 13 then "\r"
  else if (Nat.ltb n 32 || Nat.leb 127 n)%bool
       then String.append "\x" (String.append (hex_digit (n / 16)) (hex_digit (n mod 16)))
  else String c EmptyString.

Definition repr_str (s : string) : string :=
  let chars := list_ascii_of_string s in
  let quote :=
    if (existsb (Ascii.eqb "'") chars
        && negb (existsb (Ascii.eqb (ascii_of_nat 34)) chars))%bool
    then ascii_of_nat 34 else "'"%char in
  String quote
    (String.append (String.concat EmptyString (map (repr_char quote) chars))
                   (String quote EmptyString)).

Definition repr_list (l : list string) : string :=
  String.append "[" (String.append (PyStr.join ", " (map repr_str l)) "]").

End Library.

(* ================================================================== *)
(** ** The script, function by function *)
(* ================================================================== *)

Section Script.
Context `{Platform}.
Import PyStr.

(** [class temporary_directory] (lines 41-68) around the block of its
    [with] statement: [__enter__] creates the directory and hands its path
    to the block; [__exit__] removes it and returns [None], so it runs on
    every exit of the block and swallows nothing. *)
Definition temporary_directory {A} (block : string -> M A) : M A :=
  path <- tempfile_mkdtemp ;;
  try_finally (block path) (shutil_rmtree path).

(** [chdir] (lines 71-78).  The [yield] of the context manager is the
    block of the [with] statement. *)
Definition chdir {A} (path : string) (block : M A) : M A :=
  backup <- os_getcwd ;;
  try_finally (os_chdir path ;; block) (os_chdir backup).

(** [execute] (lines 81-100). *)
Definition execute (command : string) (data : list (string * pyval)) : M string :=
  command <- match data with
             | [] => ret command
             | _ :: _ => match percent command data with
                         | inr text => ret text
                         | inl e => raise e
                         end
             end ;;
  process <- subprocess_Popen command ;;
  let result := fst process in
  if negb (result =? 0)%Z
  then raise (Exception (String.append "Error while running command "
                           (String.append dquote (String.append command dquote))))
  else ret (snd process).

(** [flake8_count] (lines 103-104). *)
Definition flake8_count (path : string) : M Z :=
  output <- execute (String.append "flake8 " (String.append path " | wc -l")) [] ;;
  match int_of_str (strip output) with
  | Some n => ret n
  | None => raise (ValueError (strip output))
  end.

(** A generator, by what its consumer does with each value it yields:
    [B] is what the consumer carries from one value to the next. *)
Definition generator (A : Type) : Type :=
  forall B : Type, (B -> A -> M B) -> B -> M B.

(** [list(g)] *)
Definition py_list {A} (g : generator A) : M (list A) :=
  g (list A) (fun acc x => ret (acc ++ [x])) [].

(** [for x in g: block] *)
Definition for_in {A} (g : generator A) (block : A -> M unit) : M unit :=
  g unit (fun _ x => block x) tt.

(** [for line in lines:] of a list, threading the consumer's value. *)
Fixpoint for_lines {B} (lines : list string) (step : B -> string -> M B)
    (acc : B) : M B :=
  match lines with
  | [] => ret acc
  | line :: rest => acc' <- step acc line ;; for_lines rest step acc'
  end.

(** [git_status_files] (lines 107-116). *)
Definition git_status_files (repository_dir start_commit end_commit status : string)
    : generator string :=
  fun B yield acc =>
    chdir repository_dir (
      output <- execute (String.append "git diff --name-status "
                           (String.append start_commit
                              (String.append " " end_commit))) [] ;;
      let lines := split LF (strip output) in
      for_lines lines (fun acc line =>
        match item0 line with
        | None => raise IndexError
        | Some file_status =>
            let filename := strip (slice1 line) in
            if String.eqb file_status status then yield acc filename
            else ret acc
        end) acc).

(** [git_deleted_files], [git_modified_files], [git_created_files]
    (lines 119-131). *)
Definition git_deleted_files (repository_dir start_commit end_commit : string)
    : generator string :=
  git_status_files repository_dir start_commit end_commit "D".

Definition git_modified_files (repository_dir start_commit end_commit : string)
    : generator string :=
  git_status_files repository_dir start_commit end_commit "M".

Definition git_created_files (repository_dir start_commit end_commit : string)
    : generator string :=
  git_status_files repository_dir start_commit end_commit "A".

(** [git_branch] (lines 172-175). *)
Definition git_branch (repository_dir : string) : M string :=
  chdir repository_dir (
    output <- execute "git rev-parse --abbrev-ref HEAD" [] ;;
    ret (strip output)).

(** The command lines 185 and 188 format. *)
Definition checkout_command (commit : string) : string :=
  String.append "git checkout " commit.

(** [git_checkout] (lines 178-190).  The entry checkout stands inside
    the [try], so the [finally] covers it as well as the block. *)
Definition git_checkout {A} (repository_dir commit : string) (block : M A) : M A :=
  chdir repository_dir (
    backup <- git_branch repository_dir ;;
    if negb (String.eqb backup commit) then
      try_finally
        (execute (checkout_command commit) [] ;; block)
        (execute (checkout_command backup) [] ;; ret tt)
    else block).

(** The command line 168 formats. *)
Definition pydiff_command (start_file end_file : string) : string :=
  String.append "pydiff " (String.append start_file (String.append " " end_file)).

(** [bytecode_diff] (lines 160-169). *)
Definition bytecode_diff (filename repository_dir start_commit end_commit : string)
    : M string :=
  git_checkout repository_dir end_commit (
    temporary_directory (fun temp_dir =>
      let start_file := PosixPath.join temp_dir (PosixPath.basename filename) in
      let end_file := PosixPath.join repository_dir filename in
      git_checkout repository_dir start_commit (shutil_copy2 end_file start_file) ;;
      diff <- execute (pydiff_command start_file end_file) [] ;;
      ret diff)).

(** The two messages of lines 232 and 234. *)
Definition msg_fewer : string := "OK: flake8 reported less errors".
Definition msg_same_or_more : string := "ERROR: flake8 reported more or equal errors".

(** Lines 230-234: the comparison of the two counts. *)
Definition report_difference (start_pep8_report end_pep8_report : Z) : M unit :=
  let diff := (end_pep8_report - start_pep8_report)%Z in
  if (diff <? 0)%Z then print msg_fewer else print msg_same_or_more.

(** Lines 222-225 and 226-229: the count of one revision, printed. *)
Definition count_at (repository_dir commit : string) : M Z :=
  git_checkout repository_dir commit (
    pep8_report <- flake8_count repository_dir ;;
    print (String.append (str_of_int pep8_report)
             (String.append " flake8 errors in " commit)) ;;
    ret pep8_report).

(** Lines 203-229 of [git_review8]: the three enumerations and the two
    counts. *)
Definition review8_counts (repository_dir start_commit end_commit : string)
    : M (Z * Z) :=
  deleted <- py_list (git_deleted_files repository_dir start_commit end_commit) ;;
  match deleted with
  | [] => ret tt
  | _ :: _ => print (String.append "WARNING! Some files were deleted: "
                       (repr_list deleted))
  end ;;
  created <- py_list (git_created_files repository_dir start_commit end_commit) ;;
  match created with
  | [] => ret tt
  | _ :: _ => print (String.append "WARNING! Some files were created: "
                       (repr_list created))
  end ;;
  let modified := git_modified_files repository_dir start_commit end_commit in
  for_in modified (fun filename =>
    diff <- bytecode_diff filename repository_dir start_commit end_commit ;;
    match diff with
    | EmptyString =>
        print (String.append "OK: no bytecode diff for file " filename)
    | String _ _ =>
        print (String.concat EmptyString
                 ["WARNING! Bytecode of "; filename; " between "; start_commit;
                  " and "; end_commit; " changed:"; String LF EmptyString; diff])
    end) ;;
  start_pep8_report <- count_at repository_dir start_commit ;;
  end_pep8_report <- count_at repository_dir end_commit ;;
  ret (start_pep8_report, end_pep8_report).

(** [git_review8] (lines 193-234). *)
Definition git_review8 (repository_dir start_commit end_commit : string) : M unit :=
  counts <- review8_counts repository_dir start_commit end_commit ;;
  report_difference (fst counts) (snd counts).

End Script.

(* ================================================================== *)
(** ** A small platform to run the script on *)
(* ================================================================== *)

Module Demo.
Import PyStr.

(** A repository at [/repo] with two branches; its state is the branch
    checked out. *)
Inductive branch : Type := Master | Feature.

Definition branch_name (b : branch) : string :=
  match b with Master => "master" | Feature => "feature" end.

Definition branch_of_name (name : string) : option branch :=
  if String.eqb name "master" then Some Master
  else if String.eqb name "feature" then Some Feature
  else None.

(** Two trees of one directory; the feature branch drops a semicolon
    and leaves the rest alone. *)
Definition tree_of (b : branch) : list (string * string) :=
  match b with
  | Master => [("a.py", "x = 1;"); ("b.py", "y = 2")]
  | Feature => [("a.py", "x = 1"); ("b.py", "y = 2")]
  end.

Fixpoint assoc {V} (k : string) (l : list (string * V)) : option V :=
  match l with
  | [] => None
  | (k', v) :: l' => if String.eqb k' k then Some v else assoc k l'
  end.

(** [s[len(p):]] when [s.startswith(p)]. *)
Fixpoint strip_prefix (p s : string) : option string :=
  match p, s with
  | EmptyString, _ => Some s
  | String a p', String b s' => if Ascii.eqb a b then strip_prefix p' s' else None
  | String _ _, EmptyString => None
  end.

Definition line (text : string) : string :=
  String.append text (String LF EmptyString).

(** [git diff --name-status a b] on two trees. *)
Definition name_status (a b : list (string * string)) : string :=
  String.concat EmptyString
    (map (fun '(f, c) =>
            match assoc f b with
            | None => line (String.append "D" (String.append (String (ascii_of_nat 9) EmptyString) f))
            | Some c' => if String.eqb c c' then EmptyString
                         else line (String.append "M" (String.append (String (ascii_of_nat 9) EmptyString) f))
            end) a
     ++ map (fun '(f, _) =>
               match assoc f a with
               | None => line (String.append "A" (String.append (String (ascii_of_nat 9) EmptyString) f))
               | Some _ => EmptyString
               end) b).

(** The style checker of the demo: one report per semicolon. *)
Definition violations (content : string) : string :=
  String.concat EmptyString
    (map (fun c => if Ascii.eqb c ";" then line "E703 statement ends with a semicolon"
                   else EmptyString)
         (list_ascii_of_string content)).

Definition flake8_output (n : option FS.node) : string :=
  match n with
  | Some (FS.File c) => violations c
  | Some (FS.Dir es) =>
      String.concat EmptyString
        (map (fun e => match snd e with
                       | FS.File c => violations c
                       | FS.Dir _ => EmptyString
                       end) es)
  | None => EmptyString
  end.

Definition repository_path : FS.path := ["repo"].

Definition in_repository (cwd : string) : bool :=
  if list_eq_dec string_dec (PosixPath.components cwd) repository_path
  then true else false.

Definition worktree (files : list (string * string)) : FS.node :=
  FS.Dir (map (fun '(f, x) => (f, FS.File x)) files).

(** The child processes of the demo: the three git commands of the
    script, [pydiff] that compares the contents of two files, [flake8];
    any other command is not found. *)
Definition demo_tool (command cwd : string) (d : Disk branch) : Z * string * Disk branch :=
  if String.eqb command "git rev-parse --abbrev-ref HEAD" then
    if in_repository cwd then (0%Z, line (branch_name (ext d)), d)
    else (128%Z, EmptyString, d)
  else match strip_prefix "git checkout " command with
  | Some c =>
      match branch_of_name c with
      | Some b =>
          if in_repository cwd then
            match FS.put repository_path (Some (worktree (tree_of b))) (fs d) with
            | Some t => (0%Z, EmptyString, mkDisk t b)
            | None => (1%Z, EmptyString, d)
            end
          else (128%Z, EmptyString, d)
      | None => (1%Z, EmptyString, d)
      end
  | None =>
  match strip_prefix "git diff --name-status " command with
  | Some args =>
      match split " " args with
      | [a; b] =>
          match branch_of_name a, branch_of_name b with
          | Some ba, Some bb =>
              if in_repository cwd then (0%Z, name_status (tree_of ba) (tree_of bb), d)
              else (128%Z, EmptyString, d)
          | _, _ => (128%Z, EmptyString, d)
          end
      | _ => (129%Z, EmptyString, d)
      end
  | None =>
  match strip_prefix "pydiff " command with
  | Some args =>
      match split " " args with
      | [a; b] =>
          match FS.read (PosixPath.components (PosixPath.join cwd a)) (fs d),
                FS.read (PosixPath.components (PosixPath.join cwd b)) (fs d) with
          | Some x, Some y =>
              (0%Z, if String.eqb x y then EmptyString else line "bytecode differs", d)
          | _, _ => (1%Z, EmptyString, d)
          end
      | _ => (2%Z, EmptyString, d)
      end
  | None =>
  match strip_prefix "flake8 " command with
  | Some p =>
      let out := flake8_output
                   (FS.lookup (PosixPath.components (PosixPath.join cwd p)) (fs d)) in
      ((match out with EmptyString => 0 | _ => 1 end)%Z, out, d)
  | None => (127%Z, EmptyString, d)
  end end end end.

(** [template % data] for a mapping, over the conversions [%(key)s],
    [%(key)d] and [%%]; the demo takes any other conversion for an
    unsupported one.  The scan is in one of four places: in plain text,
    after a percent sign, inside the parentheses of a key, or at the
    conversion character of a key. *)
Inductive place : Type :=
| Text
| Percent
| Key (read : string)
| Conversion (key : string).

Definition prepend (head : string) (tail : exn + string) : exn + string :=
  match tail with
  | inr t => inr (String.append head t)
  | inl e => inl e
  end.

Fixpoint percent_scan (at_ : place) (template : string)
    (data : list (string * pyval)) : exn + string :=
  match template with
  | EmptyString =>
      match at_ with
      | Text => inr EmptyString
      | _ => inl (ValueError "incomplete format")
      end
  | String c rest =>
      match at_ with
      | Text =>
          if Ascii.eqb c "%" then percent_scan Percent rest data
          else prepend (String c EmptyString) (percent_scan Text rest data)
      | Percent =>
          if Ascii.eqb c "%" then prepend "%" (percent_scan Text rest data)
          else if Ascii.eqb c "(" then percent_scan (Key EmptyString) rest data
          else inl (ValueError "unsupported format character")
      | Key read =>
          if Ascii.eqb c ")" then percent_scan (Conversion read) rest data
          else percent_scan (Key (String.append read (String c EmptyString))) rest data
      | Conversion key =>
          match assoc key data with
          | None => inl (KeyError key)
          | Some v =>
              if Ascii.eqb c "s" then
                prepend (match v with PyStr x => x | PyInt n => str_of_int n end)
                        (percent_scan Text rest data)
              else if Ascii.eqb c "d" then
                match v with
                | PyInt n => prepend (str_of_int n) (percent_scan Text rest data)
                | PyStr _ => inl (TypeError "%d format: a number is required")
                end
              else inl (ValueError "unsupported format character")
          end
      end
  end.

Definition demo_percent (template : string) (data : list (string * pyval))
    : exn + string :=
  percent_scan Text template data.

(** The name of the next temporary directory, by the number of entries
    of [/tmp]. *)
Definition demo_tmpname (d : Disk branch) : string :=
  match FS.lookup ["tmp"] (fs d) with
  | Some (FS.Dir es) =>
      nth (List.length es) ["tmp0"; "tmp1"; "tmp2"; "tmp3"] "tmp4"
  | _ => "tmp0"
  end.

#[export] Instance demo : Platform := {
  Ext := branch;
  tool := demo_tool;
  percent := demo_percent;
  tmpname := demo_tmpname
}.

(** The process starts in [/home], on master. *)
Definition demo_state : State :=
  mkState "/home"
    (mkDisk (FS.Dir [("home", FS.Dir []); ("tmp", FS.Dir []);
                     ("repo", worktree (tree_of Master))])
            Master)
    [].

(** The revisions of the demo repository. *)
Definition demo_known (commit : string) : Prop :=
  commit = "master" \/ commit = "feature".

(** The content of [b.py] at each revision. *)
Definition demo_blob (commit : string) : option string :=
  match branch_of_name commit with
  | Some b => assoc "b.py" (tree_of b)
  | None => None
  end.

(** What the demo does for a checkout of one of its branches, and for a
    diff of two files given by absolute paths. *)
Definition checkout_result (b : branch) (c : string) (d : Disk branch)
    : Z * string * Disk branch :=
  if in_repository c then
    match FS.put repository_path (Some (worktree (tree_of b))) (fs d) with
    | Some t => (0%Z, EmptyString, mkDisk t b)
    | None => (1%Z, EmptyString, d)
    end
  else (128%Z, EmptyString, d).


End Demo.

(* ================================================================== *)
(** ** Vocabulary of the properties *)
(* ================================================================== *)

(** The command line [execute] runs: the template when the mapping is
    empty (line 94), the interpolated template otherwise (line 95), or the
    error of the interpolation. *)
Definition command_line `{Platform} (command : string)
    (data : list (string * pyval)) : exn + string :=
  match data with
  | [] => inr command
  | _ :: _ => percent command data
  end.

(** The message of line 99 for a command. *)
Definition error_message (command : string) : string :=
  String.append "Error while running command "
    (String.append PyStr.dquote (String.append command PyStr.dquote)).

(** The state in which a child process leaves the process that ran it. *)
Definition spawned `{Platform} (command : string) (status : Z) (d : Disk Ext)
    (s : State) : State :=
  mkState (cwd s) d (trace s ++ [Spawn command (cwd s) status]).

(** The commands of the child processes of a trace, oldest first. *)
Fixpoint spawns (t : list event) : list string :=
  match t with
  | [] => []
  | Spawn command _ _ :: t' => command :: spawns t'
  | _ :: t' => spawns t'
  end.

(** The branch query of line 175. *)
Definition branch_query : string := "git rev-parse --abbrev-ref HEAD".

(** The diff command of lines 109-110. *)
Definition diff_command (start_commit end_commit : string) : string :=
  String.append "git diff --name-status "
    (String.append start_commit (String.append " " end_commit)).

(** The lines of a diff output (line 111), and the file names among them
    that a status selects (lines 113-116). *)
Definition status_lines (output : string) : list string :=
  PyStr.split PyStr.LF (PyStr.strip output).

Definition has_status (status line : string) : bool :=
  match PyStr.item0 line with
  | Some file_status => String.eqb file_status status
  | None => false
  end.

Definition selected (status : string) (lines : list string) : list string :=
  map (fun line => PyStr.strip (PyStr.slice1 line))
      (filter (has_status status) lines).

(** The pipeline of line 104, and its producer. *)
Definition flake8_command (path : string) : string :=
  String.append "flake8 " path.
Definition flake8_pipeline (path : string) : string :=
  String.append "flake8 " (String.append path " | wc -l").

(** The children a [git_checkout] scope spawns around the children
    [inner] of its block, when the branch query answers [reported] and the
    scope is for [target]. *)
Definition scope_commands (reported target : string) (inner : list string)
    : list string :=
  branch_query ::
  (if String.eqb reported target then inner
   else checkout_command target :: inner ++ [checkout_command reported]).

(** A checkout of [target] that succeeded, from one state to the next. *)
Definition checked_out `{Platform} (target : string) (s s' : State) : Prop :=
  exists out d,
    sh (checkout_command target) (cwd s) (disk s) = (0%Z, out, d)
    /\ s' = spawned (checkout_command target) 0 d s.

(** Lines 183-185 and 187-190, on a normal run: with the target already
    checked out nothing happens on the way in and on the way out;
    otherwise the target is checked out on the way in and the recorded
    branch on the way out. *)
Definition scope_entry `{Platform} (reported target : string) (s s' : State) : Prop :=
  if String.eqb reported target then s' = s else checked_out target s s'.

Definition scope_exit `{Platform} (reported target : string) (s s' : State) : Prop :=
  if String.eqb reported target then s' = s else checked_out reported s s'.


(** *** What the script expects of its collaborators *)

(** Of git, about the checked-out revision [head] of a repository that
    occupies [repository]: the branch query reports it and changes
    nothing; a successful checkout of a known revision makes it the
    checked-out one; a checkout, successful or not, writes nowhere but
    along the path of the repository. *)
Record git_contract `{Platform} (head : Ext -> string) (known : string -> Prop)
    (repository : FS.path) : Prop := {
  query_reports :
    forall c d out d',
      sh branch_query c d = (0%Z, out, d') ->
      PyStr.strip out = head (ext d) /\ d' = d;
  checkout_moves :
    forall commit, known commit ->
    forall c d out d',
      sh (checkout_command commit) c d = (0%Z, out, d') ->
      head (ext d') = commit;
  checkout_confined :
    forall commit, known commit ->
    forall c d status out d' q,
      sh (checkout_command commit) c d = (status, out, d') ->
      FS.diverge repository q = true ->
      FS.lookup q (fs d') = FS.lookup q (fs d)
}.




(** The output of [git diff --name-status] for a list of changes: per
    change a status letter, a tab, the path and a line feed. *)
Definition status_record (change : ascii * string) : string :=
  String (fst change) (String (ascii_of_nat 9) (snd change)).

Fixpoint name_status_output (changes : list (ascii * string)) : string :=
  match changes with
  | [] => EmptyString
  | change :: rest =>
      String.append (status_record change)
        (String PyStr.LF (name_status_output rest))
  end.

(** A change such a line carries unharmed: the status letter is no white
    space; the path is not empty, lies on one line, and has no white
    space at either end. *)
Definition plain_change (change : ascii * string) : Prop :=
  PyStr.is_space (fst change) = false
  /\ snd change <> EmptyString
  /\ PyStr.strip (snd change) = snd change
  /\ PyStr.count_char PyStr.LF (snd change) = 0.

(** The paths of the changes with a given status, in order. *)
Definition paths_with (status : string) (changes : list (ascii * string))
    : list string :=
  map snd (filter (fun change => String.eqb (String (fst change) EmptyString) status)
             changes).

(** The body of the loop of lines 112-116, for a consumer [yield]. *)
Definition status_step `{Platform} {B} (status : string)
    (yield : B -> string -> M B) (acc : B) (line : string) : M B :=
  match PyStr.item0 line with
  | None => raise IndexError
  | Some file_status =>
      let filename := PyStr.strip (PyStr.slice1 line) in
      if String.eqb file_status status then yield acc filename else ret acc
  end.

(** A block run on each value of a list in turn; it stops at the first
    exception. *)
Fixpoint for_each `{Platform} {A} (values : list A) (block : A -> M unit)
    : M unit :=
  match values with
  | [] => ret tt
  | x :: rest => bind (block x) (fun _ => for_each rest block)
  end.

(** [main] (lines 134-157).  What [parser.parse_args()] makes of the
    command line is a parameter: given the defaults of the two optional
    positional arguments, it returns the pair of [feature] and
    [reference] or raises (the exit of [--help] or of a usage error).
    The default of [feature] is computed when the argument is declared
    (line 143): before the command line is read. *)
Definition main `{Platform}
    (parse_args : string -> string -> M (string * string)) : M unit :=
  bind os_getcwd (fun repository_dir =>
  bind (git_branch repository_dir) (fun default_feature =>
  bind (parse_args default_feature "master") (fun args =>
  let start_commit := snd args in
  let end_commit := fst args in
  git_review8 repository_dir start_commit end_commit))).



(* ================================================================== *)
(** ** Two more platforms *)
(* ================================================================== *)

(** The demo with a shell that knows comments: a [#] at the start of a
    word starts a comment that runs to the end of the line, so a simple
    command followed by a comment is that simple command. *)
Module DemoShell.

(** What stands before the first blank followed by [#]. *)
Fixpoint before_comment (s : string) : option string :=
  match s with
  | EmptyString => None
  | String c s' =>
      if (Ascii.eqb c " " && PyStr.startswith "#" s')%bool then Some EmptyString
      else option_map (String c) (before_comment s')
  end.

Definition shell_tool (command cwd : string) (d : Disk Demo.branch)
    : Z * string * Disk Demo.branch :=
  match before_comment command with
  | Some text =>
      if Shell.simple_command text then Demo.demo_tool text cwd d
      else Demo.demo_tool command cwd d
  | None => Demo.demo_tool command cwd d
  end.

Definition demo_shell : Platform := {|
  Ext := Demo.branch;
  tool := shell_tool;
  percent := Demo.demo_percent;
  tmpname := Demo.demo_tmpname
|}.

(** The process starts in [/home], on master. *)
Definition shell_state : @State demo_shell :=
  mkState (H := demo_shell) "/home" (disk Demo.demo_state) [].

End DemoShell.

(** The demo with a repository that may have no branch checked out (a
    detached head): the branch query then answers [HEAD], and the
    checkout of [HEAD] succeeds without moving anything. *)
Module DemoDetached.








End DemoDetached.

(* ================================================================== *)
(** ** Facts about the file system *)
(* ================================================================== *)

Module FSFacts.
Import FS.

Lemma entry_set_entry_eq name v es : entry name (set_entry name v es) = v.
Proof.
  unfold set_entry.
  assert (Hf : entry name (filter (fun e => negb (String.eqb (fst e) name)) es) = None).
  { induction es as [|[k n] es IH]; simpl; auto.
    destruct (String.eqb k name) eqn:E; simpl; auto. now rewrite E. }
  destruct v; simpl; [now rewrite String.eqb_refl | exact Hf].
Qed.

Lemma entry_set_entry_ne name k v es :
  k <> name -> entry k (set_entry name v es) = entry k es.
Proof.
  intros Hne. unfold set_entry.
  assert (Hf : entry k (filter (fun e => negb (String.eqb (fst e) name)) es) = entry k es).
  { induction es as [|[k' n] es IH]; simpl; auto.
    destruct (String.eqb k' name) eqn:E; simpl.
    - apply String.eqb_eq in E. subst k'.
      destruct (String.eqb name k) eqn:E2; auto.
      apply String.eqb_eq in E2. congruence.
    - now rewrite IH. }
  destruct v; simpl; auto.
  destruct (String.eqb name k) eqn:E; auto.
  apply String.eqb_eq in E. congruence.
Qed.

(** What was put at a path is what a lookup finds there. *)
Lemma lookup_put_eq p v n n' :
  put p v n = Some n' -> lookup p n' = v.
Proof.
  revert n n'. induction p as [|k p IH]; intros n n'; simpl; [discriminate|].
  destruct n as [c|es]; [discriminate|].
  destruct p as [|k' p'].
  - intros [= <-]. simpl. rewrite entry_set_entry_eq. now destruct v.
  - destruct (entry k es) as [m|] eqn:Em; [|discriminate].
    destruct (put (k' :: p') v m) as [m'|] eqn:Ep; [|discriminate].
    intros [= <-]. cbn [lookup]. rewrite entry_set_entry_eq.
    apply (IH _ _ Ep).
Qed.

(** Nothing is found under a path that does not lead to a directory. *)
Lemma lookup_under_nondir p k q n :
  isdir p n = false -> lookup (p ++ k :: q) n = None.
Proof.
  unfold isdir. revert n. induction p as [|k' p IH]; intros n; simpl.
  - destruct n; [reflexivity | discriminate].
  - destruct n as [c|es]; [reflexivity|].
    destruct (entry k' es); [apply IH | reflexivity].
Qed.

(** After a removal, nothing is found at the path or under it. *)
Lemma lookup_removed p q n n' :
  put p None n = Some n' -> lookup (p ++ q) n' = None.
Proof.
  intros Hp. destruct q as [|k q].
  - rewrite app_nil_r. apply (lookup_put_eq _ _ _ _ Hp).
  - apply lookup_under_nondir. unfold isdir.
    now rewrite (lookup_put_eq _ _ _ _ Hp).
Qed.

(** Whatever a lookup finds, other than the root, can be replaced or
    removed. *)
Lemma put_defined p v n m :
  lookup p n = Some m -> p <> [] -> exists n', put p v n = Some n'.
Proof.
  revert n. induction p as [|k p IH]; intros n Hl Hne; [congruence|].
  simpl in Hl. destruct n as [c|es]; [discriminate|].
  destruct (entry k es) as [m0|] eqn:Em; [|discriminate].
  simpl. destruct p as [|k' p'].
  - eauto.
  - rewrite Em. destruct (IH m0 Hl) as [m' Hm']; [discriminate|].
    rewrite Hm'. eauto.
Qed.


Lemma lookup_app p q n :
  lookup (p ++ q) n =
  match lookup p n with Some m => lookup q m | None => None end.
Proof.
  revert n. induction p as [|k p IH]; intros n; simpl; [reflexivity|].
  destruct n as [c|es]; [reflexivity|].
  destruct (entry k es); [apply IH | reflexivity].
Qed.


(** A write changes nothing along a path that parts ways with the path
    written. *)
Lemma lookup_put_diverge p v n n' q :
  put p v n = Some n' -> diverge p q = true -> lookup q n' = lookup q n.
Proof.
  revert n n' q. induction p as [|k p IH]; intros n n' q; simpl; [discriminate|].
  destruct n as [c|es]; [discriminate|].
  destruct q as [|k' q]; [discriminate|].
  destruct (String.eqb k k') eqn:Ek.
  - apply String.eqb_eq in Ek. subst k'.
    destruct p as [|k2 p']; [simpl; discriminate|].
    destruct (entry k es) as [m|] eqn:Em; [|discriminate].
    destruct (put (k2 :: p') v m) as [m'|] eqn:Ep; [|discriminate].
    intros [= <-] Hd. cbn [lookup]. rewrite entry_set_entry_eq, Em.
    apply (IH _ _ _ Ep Hd).
  - apply String.eqb_neq in Ek. intros Hp _.
    assert (Hn' : exists es', n' = Dir es' /\ entry k' es' = entry k' es).
    { destruct p as [|k2 p'].
      - injection Hp as <-. eexists; split; [reflexivity|].
        apply entry_set_entry_ne. congruence.
      - destruct (entry k es) as [m|]; [|discriminate].
        destruct (put (k2 :: p') v m) as [m'|]; [|discriminate].
        injection Hp as <-. eexists; split; [reflexivity|].
        apply entry_set_entry_ne. congruence. }
    destruct Hn' as (es' & -> & He). cbn [lookup]. now rewrite He.
Qed.



End FSFacts.

(* ================================================================== *)
(** ** Facts about strings *)
(* ================================================================== *)

Module PyStrFacts.
Import PyStr.

Lemma length_append (a b : string) :
  String.length (String.append a b) = String.length a + String.length b.
Proof. induction a as [|c a IH]; simpl; auto. Qed.

Lemma strip_suffix_cons suffix c s :
  strip_suffix suffix (String c s) =
  if String.eqb (String c s) suffix then Some EmptyString
  else option_map (String c) (strip_suffix suffix s).
Proof. reflexivity. Qed.

(** A pipeline is split at its [" | wc -l"]. *)
Lemma strip_suffix_append suffix x :
  strip_suffix suffix (String.append x suffix) = Some x.
Proof.
  induction x as [|c x IH].
  - destruct suffix; simpl; [reflexivity|].
    rewrite Ascii.eqb_refl, String.eqb_refl. reflexivity.
  - cbn [String.append]. rewrite strip_suffix_cons, IH.
    destruct (String.eqb (String c (String.append x suffix)) suffix) eqn:E;
      [|reflexivity].
    apply String.eqb_eq in E.
    apply (f_equal String.length) in E. simpl in E.
    rewrite length_append in E. lia.
Qed.

Lemma lstrip_solid s : solid s = true -> lstrip s = s.
Proof.
  destruct s as [|c s]; simpl; auto.
  destruct (is_space c); simpl; [discriminate | auto].
Qed.

Lemma rstrip_solid s : solid s = true -> rstrip s = s.
Proof.
  induction s as [|c s IH]; simpl; auto.
  destruct (is_space c) eqn:E; simpl; [discriminate|].
  intros Hs. rewrite (IH Hs). now destruct s.
Qed.

Lemma strip_solid s : solid s = true -> strip s = s.
Proof.
  intros Hs. unfold strip. rewrite (lstrip_solid _ Hs). now apply rstrip_solid.
Qed.

Lemma rstrip_line s :
  solid s = true -> rstrip (String.append s (String LF EmptyString)) = s.
Proof.
  induction s as [|c s IH]; simpl; auto.
  destruct (is_space c) eqn:E; simpl; [discriminate|].
  intros Hs. rewrite (IH Hs). now destruct s.
Qed.

(** The line that [wc] prints, stripped, is the number it holds. *)
Lemma strip_line s :
  solid s = true -> s <> EmptyString ->
  strip (String.append s (String LF EmptyString)) = s.
Proof.
  intros Hs Hne. unfold strip.
  destruct s as [|c s]; [congruence|].
  simpl in Hs. apply andb_true_iff in Hs as [Hc Hs].
  apply negb_true_iff in Hc.
  cbn [String.append lstrip]. rewrite Hc.
  change (String c (String.append s (String LF EmptyString)))
    with (String.append (String c s) (String LF EmptyString)).
  apply rstrip_line. simpl. now rewrite Hc, Hs.
Qed.

Lemma solid_uint d : solid (NilEmpty.string_of_uint d) = true.
Proof. induction d; simpl; auto. Qed.

Lemma solid_str_of_int n : solid (str_of_int n) = true.
Proof.
  unfold str_of_int, NilZero.string_of_int, NilZero.string_of_uint.
  destruct (Z.to_int n) as [d|d]; destruct d; simpl; auto using solid_uint.
Qed.

Lemma str_of_int_nonempty n : str_of_int n <> EmptyString.
Proof.
  unfold str_of_int, NilZero.string_of_int, NilZero.string_of_uint.
  destruct (Z.to_int n) as [d|d]; destruct d; simpl; discriminate.
Qed.

Lemma to_int_proper n :
  Z.to_int n <> Decimal.Pos Decimal.Nil /\ Z.to_int n <> Decimal.Neg Decimal.Nil.
Proof.
  destruct n as [|p|p]; simpl; split; try discriminate;
    intros [= E]; now apply (DecimalPos.Unsigned.to_uint_nonnil p).
Qed.

(** A decimal number never starts with a plus sign. *)
Lemma str_of_int_head n :
  match str_of_int n with
  | String c _ => Ascii.eqb c "+" = false
  | EmptyString => False
  end.
Proof.
  unfold str_of_int, NilZero.string_of_int, NilZero.string_of_uint.
  destruct (Z.to_int n) as [d|d]; destruct d; simpl; auto.
Qed.

(** [int(str(n)) == n] *)
Lemma int_of_str_of_int n : int_of_str (str_of_int n) = Some n.
Proof.
  unfold int_of_str. rewrite (strip_solid _ (solid_str_of_int n)).
  pose proof (str_of_int_head n) as Hh.
  assert (Hp : option_map Z.of_int (NilZero.int_of_string (str_of_int n)) = Some n).
  { unfold str_of_int. destruct (to_int_proper n) as [H1 H2].
    rewrite (NilZero.isi _ H1 H2). simpl. now rewrite DecimalZ.of_to. }
  destruct (str_of_int n) as [|c s]; [contradiction|].
  destruct c as [[] [] [] [] [] [] [] []]; try exact Hp; discriminate.
Qed.

(** [int(wc_output.strip())] is the number of lines counted. *)
Lemma int_of_line n :
  int_of_str (strip (String.append (str_of_int n) (String LF EmptyString))) = Some n.
Proof.
  rewrite (strip_line _ (solid_str_of_int n) (str_of_int_nonempty n)).
  apply int_of_str_of_int.
Qed.


Lemma split_nonempty sep s : split sep s <> [].
Proof.
  destruct s as [|c s]; simpl; [discriminate|].
  destruct (Ascii.eqb c sep); [discriminate|].
  destruct (split sep s); discriminate.
Qed.

(** Splitting at a separator splits the list of pieces. *)
Lemma split_append sep a b :
  split sep (String.append a (String sep b)) = split sep a ++ split sep b.
Proof.
  induction a as [|c a IH]; cbn [String.append split].
  - now rewrite Ascii.eqb_refl.
  - destruct (Ascii.eqb c sep); [now rewrite IH|].
    rewrite IH. destruct (split sep a) as [|h t] eqn:E; [|reflexivity].
    now apply split_nonempty in E.
Qed.


End PyStrFacts.

(* ================================================================== *)
(** ** Facts about paths *)
(* ================================================================== *)

Module PathFacts.
Import PyStr PosixPath.



Lemma join_absolute a b : isabs b = true -> join a b = b.
Proof. unfold join, isabs. now intros ->. Qed.

Lemma isabs_join a b : isabs a = true -> isabs (join a b) = true.
Proof.
  unfold join, isabs. intros Ha.
  destruct (startswith "/" b) eqn:Eb; [exact Eb|].
  destruct a as [|c a]; [discriminate|].
  destruct (_ || _)%bool; exact Ha.
Qed.


End PathFacts.

(* ================================================================== *)
(** ** Running computations step by step *)
(* ================================================================== *)

Section Steps.
Context `{Platform}.

Lemma bind_ok {A B} (m : M A) (k : A -> M B) s a s' :
  m s = (Ok a, s') -> bind m k s = k a s'.
Proof. unfold bind. now intros ->. Qed.

Lemma bind_raise {A B} (m : M A) (k : A -> M B) s e s' :
  m s = (Raise e, s') -> bind m k s = (Raise e, s').
Proof. unfold bind. now intros ->. Qed.

Lemma spawns_app t1 t2 : spawns (t1 ++ t2) = spawns t1 ++ spawns t2.
Proof.
  induction t1 as [|e t1 IH]; simpl; auto.
  destruct e; simpl; now rewrite IH.
Qed.

(** [execute], by the outcome of the interpolation and of the child. *)
Lemma execute_run command data s :
  execute command data s =
  match command_line command data with
  | inl e => (Raise e, s)
  | inr text =>
      let '(status, out, d) := sh text (cwd s) (disk s) in
      (if (status =? 0)%Z then Ok out else Raise (Exception (error_message text)),
       spawned text status d s)
  end.
Proof.
  unfold execute, command_line, bind, subprocess_Popen, spawned, error_message.
  destruct data as [|x data].
  - unfold ret. destruct (sh command (cwd s) (disk s)) as [[status out] d].
    simpl. now destruct (status =? 0)%Z.
  - destruct (percent command (x :: data)) as [e|text]; [reflexivity|].
    unfold ret. destruct (sh text (cwd s) (disk s)) as [[status out] d].
    simpl. now destruct (status =? 0)%Z.
Qed.

(** A command written by the script itself, with no substitutions. *)
Lemma execute_plain command s :
  execute command [] s =
  let '(status, out, d) := sh command (cwd s) (disk s) in
  (if (status =? 0)%Z then Ok out else Raise (Exception (error_message command)),
   spawned command status d s).
Proof. now rewrite execute_run. Qed.

(** The command line of the style checker on a path of literal
    characters and blanks is a simple command. *)
Lemma simple_flake8_command path :
  Shell.plain path = true ->
  Shell.simple_command (flake8_command path) = true.
Proof.
  intros Hp. unfold Shell.simple_command, flake8_command, Shell.words.
  cbn. rewrite Hp. destruct (PyStr.split " " path); reflexivity.
Qed.

Lemma sh_pipeline path cwd0 d :
  Shell.plain path = true ->
  sh (flake8_pipeline path) cwd0 d =
  let '(_, out, d') := tool (flake8_command path) cwd0 d in (0%Z, wc_l out, d').
Proof.
  intros Hp. pose proof (simple_flake8_command path Hp) as Hs.
  unfold sh, flake8_pipeline.
  change (String.append "flake8 " (String.append path " | wc -l"))
    with (String.append (flake8_command path) " | wc -l").
  now rewrite PyStrFacts.strip_suffix_append, Hs.
Qed.

End Steps.

(* ================================================================== *)
(** ** The command runner and the style-violation counter *)
(* ================================================================== *)

(** C5, as the code has it.  For a path made of characters the shell
    takes literally and of blanks, the command line of line 104 is the
    pipeline of the style checker into [wc -l]: [flake8_count] is the
    number of lines the checker wrote, whatever the checker's own exit
    status, since the pipeline's status is that of [wc], which is zero;
    so [execute] never raises for a failing checker, and a checker that
    writes nothing counts as 0. *)
Theorem flake8_count_counts_lines `{Platform} (path : string) (s : State) :
  Shell.plain path = true ->
  let '(status, out, d) := tool (flake8_command path) (cwd s) (disk s) in
  flake8_count path s =
    (Ok (Z.of_nat (PyStr.count_char PyStr.LF out)),
     spawned (flake8_pipeline path) 0 d s)
  /\ (out = EmptyString ->
      flake8_count path s = (Ok 0%Z, spawned (flake8_pipeline path) 0 d s)).
Proof.
  intros Hplain.
  destruct (tool (flake8_command path) (cwd s) (disk s)) as [[status out] d] eqn:Et.
  assert (Hrun : flake8_count path s =
                 (Ok (Z.of_nat (PyStr.count_char PyStr.LF out)),
                  spawned (flake8_pipeline path) 0 d s)).
  { unfold flake8_count.
    change (String.append "flake8 " (String.append path " | wc -l"))
      with (flake8_pipeline path).
    unfold bind. rewrite execute_plain, (sh_pipeline _ _ _ Hplain), Et.
    cbn [Z.eqb]. unfold wc_l. rewrite PyStrFacts.int_of_line. reflexivity. }
  split; [exact Hrun|].
  intros ->. exact Hrun.
Qed.

(** On the demo repository, on master: the checker reports one
    violation and exits with status 1. *)
Lemma flake8_count_counts_lines_witness :
  let s := Demo.demo_state in
  let '(status, out, d) := tool (flake8_command "/repo") (cwd s) (disk s) in
  flake8_count "/repo" s =
    (Ok (Z.of_nat (PyStr.count_char PyStr.LF out)),
     spawned (flake8_pipeline "/repo") 0 d s)
  /\ (out = EmptyString ->
      flake8_count "/repo" s = (Ok 0%Z, spawned (flake8_pipeline "/repo") 0 d s)).
Proof.
  cbv zeta.
  apply (flake8_count_counts_lines (H := Demo.demo) "/repo" Demo.demo_state).
  reflexivity.
Defined.

(** C5, as stated, fails on a path that holds shell syntax.  With a
    blank and a [#] in the path, what follows is a comment to the shell:
    the pipe into [wc -l] is gone, the status of the command line is the
    checker's own, and its non-zero exit makes [execute] raise. *)
Theorem flake8_count_comment_in_path :
  let s := DemoShell.shell_state in
  sh (H := DemoShell.demo_shell) (flake8_pipeline "/repo #x") (cwd s) (disk s)
    = tool (Platform := DemoShell.demo_shell) (flake8_command "/repo") (cwd s) (disk s)
  /\ fst (fst (tool (Platform := DemoShell.demo_shell) (flake8_command "/repo")
                 (cwd s) (disk s))) = 1%Z
  /\ flake8_count (H := DemoShell.demo_shell) "/repo #x" s
     = (Raise (Exception (error_message (flake8_pipeline "/repo #x"))),
        spawned (flake8_pipeline "/repo #x") 1 (disk s) s).
Proof. cbv zeta. repeat split; vm_compute; reflexivity. Qed.

(** C8, as the code has it.  When the interpolation of the substitutions
    succeeds, [execute] spawns one child on the resulting command line; it
    returns the captured output when the child exits with status zero, and
    raises [Exception] otherwise, with a message that quotes the command
    line as run: the template after interpolation, which is the template
    itself only when the mapping is empty.  When the interpolation fails,
    its error is raised and no child is spawned. *)
Theorem execute_outcome `{Platform} (command : string)
    (data : list (string * pyval)) (s : State) :
  match command_line command data with
  | inl e => execute command data s = (Raise e, s)
  | inr text =>
      let '(status, out, d) := sh text (cwd s) (disk s) in
      (status = 0%Z <-> execute command data s = (Ok out, spawned text status d s))
      /\ (status <> 0%Z <->
          execute command data s =
            (Raise (Exception (error_message text)), spawned text status d s))
      /\ (data = [] -> text = command)
  end.
Proof.
  rewrite execute_run.
  destruct (command_line command data) as [e|text] eqn:Ec; [reflexivity|].
  destruct (sh text (cwd s) (disk s)) as [[status out] d].
  assert (Htext : data = [] -> text = command).
  { intros ->. simpl in Ec. congruence. }
  destruct (Z.eqb_spec status 0) as [->|Hne].
  - repeat split; intros; try congruence; try discriminate; auto.
  - repeat split; intros; try congruence; try discriminate; auto.
Qed.

(** C8, as stated, fails: with the mapping [{'branch': 'nowhere'}] the
    error of a failed [git checkout %(branch)s] quotes the interpolated
    command line, not the template [execute] was given. *)
Lemma execute_error_quotes_interpolated_command :
  fst (execute (H := Demo.demo) "git checkout %(branch)s"
         [("branch", PyStr "nowhere")] Demo.demo_state)
  = Raise (Exception (error_message "git checkout nowhere"))
  /\ error_message "git checkout nowhere"
     <> error_message "git checkout %(branch)s".
Proof. split; [vm_compute; reflexivity | discriminate]. Qed.

(* ================================================================== *)
(** ** The verdict of the orchestrator *)
(* ================================================================== *)

(** C2.  Once the two counts are computed, [git_review8] prints exactly
    one more line: the OK message if and only if the count of the end
    revision is strictly lower than the count of the start revision, and
    the error message otherwise, equal counts included. *)
Theorem git_review8_verdict `{Platform}
    (repository_dir start_commit end_commit : string)
    (s s1 : State) (start_report end_report : Z) :
  review8_counts repository_dir start_commit end_commit s
    = (Ok (start_report, end_report), s1) ->
  exists line,
    git_review8 repository_dir start_commit end_commit s
      = (Ok tt, log (Print line) s1)
    /\ (line = msg_fewer <-> (end_report < start_report)%Z)
    /\ (line = msg_same_or_more <-> (start_report <= end_report)%Z).
Proof.
  intros Hcounts. unfold git_review8.
  rewrite (bind_ok _ _ _ _ _ Hcounts). cbn [fst snd].
  unfold report_difference, print.
  destruct (Z.ltb_spec (end_report - start_report) 0) as [Hlt|Hge].
  - exists msg_fewer. repeat split; intros; try lia; try reflexivity.
    discriminate.
  - exists msg_same_or_more. repeat split; intros; try lia; try reflexivity.
    discriminate.
Qed.

(** On the demo repository the feature branch has no violation left and
    master has one. *)
Lemma git_review8_verdict_witness :
  exists line,
    git_review8 (H := Demo.demo) "/repo" "master" "feature" Demo.demo_state
      = (Ok tt, log (Print line)
                  (snd (review8_counts (H := Demo.demo) "/repo" "master" "feature"
                          Demo.demo_state)))
    /\ (line = msg_fewer <-> (0 < 1)%Z)
    /\ (line = msg_same_or_more <-> (1 <= 0)%Z).
Proof.
  apply (git_review8_verdict (H := Demo.demo) "/repo" "master" "feature"
           Demo.demo_state _ 1%Z 0%Z).
  vm_compute. reflexivity.
Defined.

(* ================================================================== *)
(** ** The scoped temporary directory *)
(* ================================================================== *)

Section TemporaryDirectory.
Context `{Platform}.

Lemma gettempdir_join_absolute name :
  PosixPath.isabs (PosixPath.join gettempdir name) = true.
Proof.
  unfold PosixPath.join, PosixPath.isabs.
  destruct (PyStr.startswith "/" name) eqn:E; [exact E | reflexivity].
Qed.

(** What [tempfile.mkdtemp] returns: an absolute path, not the root,
    where nothing stood before. *)
Lemma mkdtemp_path s path s1 :
  tempfile_mkdtemp s = (Ok path, s1) ->
  PosixPath.isabs path = true
  /\ FS.lookup (PosixPath.components path) (fs (disk s)) = None
  /\ PosixPath.components path <> []
  /\ FS.isdir (PosixPath.components path) (fs (disk s1)) = true
  /\ cwd s1 = cwd s /\ ext (disk s1) = ext (disk s)
  /\ trace s1 = trace s ++ [Mkdtemp path].
Proof.
  unfold tempfile_mkdtemp.
  set (name := tmpname (disk s)).
  destruct (FS.lookup (PosixPath.components (PosixPath.join gettempdir name))
              (fs (disk s))) as [m|] eqn:El; [discriminate|].
  destruct (FS.put (PosixPath.components (PosixPath.join gettempdir name))
              (Some (FS.Dir [])) (fs (disk s))) as [t|] eqn:Ep; [|discriminate].
  intros [= <- <-]. cbn [cwd disk fs ext trace log].
  repeat split; auto using gettempdir_join_absolute.
  - intros E. rewrite E in El. discriminate.
  - unfold FS.isdir. now rewrite (FSFacts.lookup_put_eq _ _ _ _ Ep).
Qed.

(** [shutil.rmtree] of an absolute path: afterwards no directory stands
    there and nothing is found under it, whether the call succeeded or
    raised. *)
Lemma rmtree_gone path s r s' :
  PosixPath.isabs path = true ->
  PosixPath.components path <> [] ->
  shutil_rmtree path s = (r, s') ->
  FS.isdir (PosixPath.components path) (fs (disk s')) = false
  /\ (forall k q,
        FS.lookup (PosixPath.components path ++ k :: q) (fs (disk s')) = None)
  /\ (FS.isdir (PosixPath.components path) (fs (disk s)) = true ->
      r = Ok tt
      /\ forall q, FS.lookup (PosixPath.components path ++ q) (fs (disk s')) = None)
  /\ cwd s' = cwd s /\ ext (disk s') = ext (disk s)
  /\ trace s' = trace s ++ [Rmtree path].
Proof.
  intros Habs Hne. unfold shutil_rmtree.
  rewrite (PathFacts.join_absolute _ _ Habs).
  set (p := PosixPath.components path) in *.
  destruct (FS.isdir p (fs (disk s))) eqn:Ed.
  - assert (Hput : exists t, FS.put p None (fs (disk s)) = Some t).
    { unfold FS.isdir in Ed.
      destruct (FS.lookup p (fs (disk s))) as [m|] eqn:El; [|discriminate].
      apply (FSFacts.put_defined _ _ _ _ El Hne). }
    destruct Hput as [t Ht]. rewrite Ht. intros [= <- <-].
    cbn [cwd disk fs ext trace log].
    assert (Hgone : forall q, FS.lookup (p ++ q) t = None)
      by (intros q; apply (FSFacts.lookup_removed _ q _ _ Ht)).
    repeat split; auto.
    unfold FS.isdir. specialize (Hgone []). rewrite app_nil_r in Hgone.
    now rewrite Hgone.
  - intros [= <- <-]. cbn [cwd disk fs ext trace log].
    repeat split; auto; try discriminate.
    intros k q. now apply FSFacts.lookup_under_nondir.
Qed.

End TemporaryDirectory.

(** C7.  After a [temporary_directory] scope is left, whether its block
    completed or raised, no directory stands at the path that was created
    and nothing is found under it; an exception of the block is never
    swallowed: the scope raises too, and raises that very exception when
    the directory was still there to remove. *)
Theorem temporary_directory_removed `{Platform} {A}
    (block : string -> M A) (s s1 : State) (path : string) :
  tempfile_mkdtemp s = (Ok path, s1) ->
  let '(r1, s2) := block path s1 in
  let '(r, s3) := temporary_directory block s in
  let p := PosixPath.components path in
  FS.isdir p (fs (disk s3)) = false
  /\ (forall k q, FS.lookup (p ++ k :: q) (fs (disk s3)) = None)
  /\ (forall e, r1 = Raise e -> exists e', r = Raise e')
  /\ (FS.isdir p (fs (disk s2)) = true -> r = r1).
Proof.
  intros Hmk.
  destruct (mkdtemp_path _ _ _ Hmk) as (Habs & _ & Hne & _).
  unfold temporary_directory. rewrite (bind_ok _ _ _ _ _ Hmk).
  unfold try_finally.
  destruct (block path s1) as [r1 s2].
  destruct (shutil_rmtree path s2) as [rf s3] eqn:Erm.
  destruct (rmtree_gone _ _ _ _ Habs Hne Erm) as (Hd & Hu & Hok & _).
  destruct rf as [[]|e']; cbn zeta.
  - repeat split; auto. intros e ->. eauto.
  - repeat split; auto.
    + intros e _. eauto.
    + intros Hdir. destruct (Hok Hdir) as [Hr _]. discriminate.
Qed.

(** A block that copies a file into its directory and then raises. *)
Lemma temporary_directory_removed_witness :
  let block := fun path : string =>
    shutil_copy2 (H := Demo.demo) "/repo/a.py" (PosixPath.join path "a.py") ;;
    raise (A := unit) (Raised "boom") in
  let s := Demo.demo_state in
  let s1 := snd (tempfile_mkdtemp s) in
  let '(r1, s2) := block "/tmp/tmp0" s1 in
  let '(r, s3) := temporary_directory block s in
  let p := PosixPath.components "/tmp/tmp0" in
  FS.isdir p (fs (disk s3)) = false
  /\ (forall k q, FS.lookup (p ++ k :: q) (fs (disk s3)) = None)
  /\ (forall e, r1 = Raise e -> exists e', r = Raise e')
  /\ (FS.isdir p (fs (disk s2)) = true -> r = r1).
Proof.
  cbv zeta.
  apply (temporary_directory_removed (H := Demo.demo)
           (fun path : string =>
              shutil_copy2 (H := Demo.demo) "/repo/a.py" (PosixPath.join path "a.py") ;;
              raise (A := unit) (Raised "boom"))
           Demo.demo_state (snd (tempfile_mkdtemp Demo.demo_state)) "/tmp/tmp0").
  vm_compute. reflexivity.
Defined.

(* ================================================================== *)
(** ** The scoped working directory and the scoped checkout *)
(* ================================================================== *)

Section Scopes.
Context `{Platform}.

(** [os.chdir] touches nothing on disk; it moves the process only when
    it succeeds. *)
Lemma os_chdir_run path s :
  os_chdir path s =
  let target := PosixPath.join (cwd s) path in
  if FS.isdir (PosixPath.components target) (fs (disk s))
  then (Ok tt, mkState target (disk s) (trace s ++ [Chdir target]))
  else (Raise (OSError path), mkState (cwd s) (disk s) (trace s ++ [Chdir target])).
Proof. reflexivity. Qed.

Lemma os_chdir_frame path s r s' :
  os_chdir path s = (r, s') ->
  disk s' = disk s
  /\ trace s' = trace s ++ [Chdir (PosixPath.join (cwd s) path)]
  /\ (r = Ok tt \/ r = Raise (OSError path)).
Proof.
  rewrite os_chdir_run. cbv zeta.
  destruct (FS.isdir _ _); intros [= <- <-]; simpl; auto.
Qed.

Lemma os_chdir_ok path s s' :
  os_chdir path s = (Ok tt, s') ->
  s' = mkState (PosixPath.join (cwd s) path) (disk s)
         (trace s ++ [Chdir (PosixPath.join (cwd s) path)]).
Proof.
  rewrite os_chdir_run. cbv zeta.
  destruct (FS.isdir _ _); intros [= <-]; reflexivity.
Qed.

(** Once inside: what is left of [chdir] is its block and the way back. *)
Lemma chdir_run {A} path (block : M A) s s1 :
  os_chdir path s = (Ok tt, s1) ->
  chdir path block s = try_finally block (os_chdir (cwd s)) s1.
Proof.
  intros H1. unfold chdir, bind, os_getcwd, try_finally. now rewrite H1.
Qed.

Lemma try_finally_ok {A} (body : M A) final s a s' :
  try_finally body final s = (Ok a, s') ->
  exists s1, body s = (Ok a, s1) /\ final s1 = (Ok tt, s').
Proof.
  unfold try_finally. destruct (body s) as [r s1].
  destruct (final s1) as [[[]|e] s2] eqn:Ef; intros [= -> ->]; eauto.
Qed.

Lemma bind_ok_inv {A B} (m : M A) (k : A -> M B) s b s' :
  bind m k s = (Ok b, s') ->
  exists a s1, m s = (Ok a, s1) /\ k a s1 = (Ok b, s').
Proof.
  unfold bind. destruct (m s) as [[a|e] s1] eqn:Em; [eauto | discriminate].
Qed.

Lemma chdir_ok {A} path (block : M A) s a s' :
  chdir path block s = (Ok a, s') ->
  exists s1 s2,
    os_chdir path s = (Ok tt, s1) /\ block s1 = (Ok a, s2)
    /\ os_chdir (cwd s) s2 = (Ok tt, s').
Proof.
  unfold chdir, os_getcwd. intros Hc.
  apply bind_ok_inv in Hc as (backup & s0 & [= <- <-] & Hc).
  apply try_finally_ok in Hc as (s2 & Hb & Hf).
  apply bind_ok_inv in Hb as ([] & s1 & H1 & Hb). eauto.
Qed.

Lemma execute_ok command s out s' :
  execute command [] s = (Ok out, s') ->
  exists d, sh command (cwd s) (disk s) = (0%Z, out, d)
            /\ s' = spawned command 0 d s.
Proof.
  rewrite execute_plain.
  destruct (sh command (cwd s) (disk s)) as [[status o] d].
  destruct (Z.eqb_spec status 0) as [->|Hne]; [|discriminate].
  intros [= <- <-]. eauto.
Qed.

Lemma execute_raise command s e s' :
  execute command [] s = (Raise e, s') ->
  exists status out d,
    sh command (cwd s) (disk s) = (status, out, d) /\ status <> 0%Z
    /\ e = Exception (error_message command)
    /\ s' = spawned command status d s.
Proof.
  rewrite execute_plain.
  destruct (sh command (cwd s) (disk s)) as [[status o] d].
  destruct (Z.eqb_spec status 0) as [->|Hne]; [discriminate|].
  intros [= <- <-]. exists status, o, d. auto.
Qed.

(** A branch query that answered: one child, in the repository, between
    two changes of directory. *)
Lemma git_branch_ok repository_dir s branch s' :
  git_branch repository_dir s = (Ok branch, s') ->
  let c := PosixPath.join (cwd s) repository_dir in
  exists out d,
    sh branch_query c (disk s) = (0%Z, out, d)
    /\ branch = PyStr.strip out
    /\ s' = mkState (PosixPath.join c (cwd s)) d
              (trace s ++ [Chdir c; Spawn branch_query c 0;
                           Chdir (PosixPath.join c (cwd s))]).
Proof.
  unfold git_branch. intros Hb.
  apply chdir_ok in Hb as (s1 & s2 & H1 & Hq & H2).
  apply os_chdir_ok in H1. subst s1.
  apply bind_ok_inv in Hq as (out & s3 & Hx & [= <- <-]).
  apply execute_ok in Hx as (d & Hsh & ->).
  apply os_chdir_ok in H2. subst s'. cbn [cwd disk trace spawned] in *.
  exists out, d. repeat split; auto.
  rewrite <- !app_assoc. reflexivity.
Qed.

(** Once inside the repository with the branch known: what is left of
    [git_checkout]. *)
Lemma git_checkout_run {A} repository_dir commit (block : M A) s s1 backup s2 :
  os_chdir repository_dir s = (Ok tt, s1) ->
  git_branch repository_dir s1 = (Ok backup, s2) ->
  git_checkout repository_dir commit block s =
  try_finally
    (if negb (String.eqb backup commit) then
       try_finally (execute (checkout_command commit) [] ;; block)
                   (execute (checkout_command backup) [] ;; ret tt)
     else block)
    (os_chdir (cwd s)) s2.
Proof.
  intros H1 H2. unfold git_checkout. rewrite (chdir_run _ _ _ _ H1).
  unfold try_finally at 1. unfold try_finally at 2.
  now rewrite (bind_ok _ _ _ _ _ H2).
Qed.

(** The restoring checkout of line 188, run on its own. *)
Lemma restore_run backup s :
  (execute (checkout_command backup) [] ;; ret tt) s =
  let '(status, out, d) := sh (checkout_command backup) (cwd s) (disk s) in
  (if (status =? 0)%Z then Ok tt
   else Raise (Exception (error_message (checkout_command backup))),
   spawned (checkout_command backup) status d s).
Proof.
  unfold bind. rewrite execute_plain.
  destruct (sh _ _ _) as [[status out] d]. now destruct (status =? 0)%Z.
Qed.

End Scopes.

(* ================================================================== *)
(** ** The revision enumerator *)
(* ================================================================== *)

(** C1 does not hold of the code: it raises.  When the diff command
    succeeds with an output that is empty once stripped, [split] still
    returns one line, the empty one, and [line[0]] of line 113 raises
    [IndexError] before anything is yielded, whatever the consumer of the
    generator and whatever the status asked for; so do the three
    enumerations drained by [list].  ([OSError] takes its place when the
    directory of the caller is gone by the time [chdir] returns to it.) *)
Theorem git_status_files_blank_output `{Platform}
    (repository_dir start_commit end_commit : string)
    (s s1 : State) (out : string) (d : Disk Ext) :
  os_chdir repository_dir s = (Ok tt, s1) ->
  sh (diff_command start_commit end_commit) (cwd s1) (disk s1) = (0%Z, out, d) ->
  PyStr.strip out = EmptyString ->
  let home := PosixPath.join (cwd s1) (cwd s) in
  let e := if FS.isdir (PosixPath.components home) (fs d)
           then IndexError else OSError (cwd s) in
  exists s',
    (forall (status : string) (B : Type) (yield : B -> string -> M B) (acc : B),
        git_status_files repository_dir start_commit end_commit status B yield acc s
        = (Raise e, s'))
    /\ py_list (git_deleted_files repository_dir start_commit end_commit) s
       = (Raise e, s')
    /\ py_list (git_created_files repository_dir start_commit end_commit) s
       = (Raise e, s')
    /\ py_list (git_modified_files repository_dir start_commit end_commit) s
       = (Raise e, s').
Proof.
  intros H1 Hsh Hblank home e.
  exists (snd (os_chdir (cwd s)
                 (spawned (diff_command start_commit end_commit) 0 d s1))).
  assert (Hall : forall status B (yield : B -> string -> M B) acc,
            git_status_files repository_dir start_commit end_commit status
              B yield acc s
            = (Raise e,
               snd (os_chdir (cwd s)
                      (spawned (diff_command start_commit end_commit) 0 d s1)))).
  { intros status B yield acc. unfold git_status_files.
    rewrite (chdir_run _ _ _ _ H1). unfold try_finally, bind.
    change (String.append "git diff --name-status "
              (String.append start_commit (String.append " " end_commit)))
      with (diff_command start_commit end_commit).
    rewrite execute_plain, Hsh. cbn [Z.eqb]. rewrite Hblank.
    cbn [PyStr.split for_lines PyStr.item0]. unfold bind, raise.
    rewrite os_chdir_run. unfold spawned. cbn [cwd disk trace fs]. cbv zeta.
    subst e home. now destruct (FS.isdir _ (fs d)). }
  repeat split; intros; unfold py_list, git_deleted_files,
    git_created_files, git_modified_files; apply Hall.
Qed.

(** On the demo repository, between master and itself: the diff is
    empty. *)
Lemma git_status_files_blank_output_witness :
  let s := Demo.demo_state in
  let s1 := snd (os_chdir (H := Demo.demo) "/repo" s) in
  exists s',
    (forall (status : string) (B : Type) (yield : B -> string -> M B) (acc : B),
        git_status_files "/repo" "master" "master" status B yield acc s
        = (Raise IndexError, s'))
    /\ py_list (git_deleted_files "/repo" "master" "master") s
       = (Raise IndexError, s')
    /\ py_list (git_created_files "/repo" "master" "master") s
       = (Raise IndexError, s')
    /\ py_list (git_modified_files "/repo" "master" "master") s
       = (Raise IndexError, s').
Proof.
  cbv zeta.
  apply (git_status_files_blank_output (H := Demo.demo)
           "/repo" "master" "master" Demo.demo_state
           (snd (os_chdir (H := Demo.demo) "/repo" Demo.demo_state))
           EmptyString (disk Demo.demo_state));
    vm_compute; reflexivity.
Defined.

(** C9.  When the branch query already answers the target revision, the
    scope is its block and nothing else: the block starts right after the
    query, and on its way out, whether the block returned or raised, the
    scope only goes back to the directory of the caller.  No child is
    spawned on exit and the disk is as the block left it. *)
Theorem git_checkout_pass_through `{Platform} {A}
    (repository_dir commit : string) (block : M A) (s s1 s2 : State) :
  os_chdir repository_dir s = (Ok tt, s1) ->
  git_branch repository_dir s1 = (Ok commit, s2) ->
  let '(r, s3) := block s2 in
  let '(r', s4) := git_checkout repository_dir commit block s in
  spawns (trace s2) = spawns (trace s) ++ [branch_query]
  /\ disk s4 = disk s3
  /\ trace s4 = trace s3 ++ [Chdir (PosixPath.join (cwd s3) (cwd s))]
  /\ spawns (trace s4) = spawns (trace s3)
  /\ (r' = r \/ r' = Raise (OSError (cwd s))).
Proof.
  intros H1 H2. rewrite (git_checkout_run _ _ _ _ _ _ _ H1 H2).
  rewrite String.eqb_refl. cbn [negb]. unfold try_finally.
  destruct (block s2) as [r s3].
  destruct (os_chdir (cwd s) s3) as [rf s4] eqn:Ef.
  apply os_chdir_frame in Ef as (Hd & Ht & Hr).
  assert (Hentry : spawns (trace s2) = spawns (trace s) ++ [branch_query]).
  { apply git_branch_ok in H2 as (out & d & _ & _ & ->).
    apply os_chdir_ok in H1. subst s1. cbn [trace cwd].
    rewrite !spawns_app. simpl. now rewrite app_nil_r. }
  assert (Hexit : spawns (trace s3 ++ [Chdir (PosixPath.join (cwd s3) (cwd s))])
                  = spawns (trace s3)).
  { rewrite spawns_app. simpl. now rewrite app_nil_r. }
  destruct rf as [[]|ef]; cbn zeta; rewrite Ht.
  - repeat split; auto.
  - repeat split; auto.
    destruct Hr as [Hr|Hr]; [discriminate | right; congruence].
Qed.

(** On the demo repository, on master: a scope on master whose block
    raises. *)
Lemma git_checkout_pass_through_witness :
  let s := Demo.demo_state in
  let s1 := snd (os_chdir (H := Demo.demo) "/repo" s) in
  let s2 := snd (git_branch (H := Demo.demo) "/repo" s1) in
  let block := raise (H := Demo.demo) (A := unit) (Raised "boom") in
  let '(r, s3) := block s2 in
  let '(r', s4) := git_checkout "/repo" "master" block s in
  spawns (trace s2) = spawns (trace s) ++ [branch_query]
  /\ disk s4 = disk s3
  /\ trace s4 = trace s3 ++ [Chdir (PosixPath.join (cwd s3) (cwd s))]
  /\ spawns (trace s4) = spawns (trace s3)
  /\ (r' = r \/ r' = Raise (OSError (cwd s))).
Proof.
  cbv zeta.
  apply (git_checkout_pass_through (H := Demo.demo) "/repo" "master"
           (raise (H := Demo.demo) (A := unit) (Raised "boom"))
           Demo.demo_state
           (snd (os_chdir (H := Demo.demo) "/repo" Demo.demo_state))
           (snd (git_branch (H := Demo.demo) "/repo"
                   (snd (os_chdir (H := Demo.demo) "/repo" Demo.demo_state)))));
    vm_compute; reflexivity.
Defined.

(** C3.  When the entry checkout succeeded and the block raises, the
    first thing the scope does with the state the block left is to spawn
    the checkout of the branch recorded on entry; only then, back in the
    directory of the caller, does it end, and it ends with an exception:
    the block's own when the restoring checkout and the return succeed.
    With a git whose successful checkout makes its target the checked-out
    revision, the recorded branch is checked out again when the restoring
    checkout exits with status zero. *)
Theorem git_checkout_restores_on_raise `{Platform} {A}
    (repository_dir commit backup : string) (block : M A)
    (s s1 s2 s3 s4 : State) (out : string) (e : exn) :
  os_chdir repository_dir s = (Ok tt, s1) ->
  git_branch repository_dir s1 = (Ok backup, s2) ->
  backup <> commit ->
  execute (checkout_command commit) [] s2 = (Ok out, s3) ->
  block s3 = (Raise e, s4) ->
  let '(status, _, d) := sh (checkout_command backup) (cwd s4) (disk s4) in
  let '(r, s6) := git_checkout repository_dir commit block s in
  let home := PosixPath.join (cwd s4) (cwd s) in
  disk s6 = d
  /\ trace s6 = trace s4 ++ [Spawn (checkout_command backup) (cwd s4) status;
                             Chdir home]
  /\ (exists e', r = Raise e')
  /\ (status = 0%Z ->
      FS.isdir (PosixPath.components home) (fs d) = true -> r = Raise e)
  /\ (forall head : Ext -> string,
        (forall c d0 o d1,
            sh (checkout_command backup) c d0 = (0%Z, o, d1) ->
            head (ext d1) = backup) ->
        status = 0%Z -> head (ext (disk s6)) = backup).
Proof.
  intros H1 H2 Hne H3 H4. rewrite (git_checkout_run _ _ _ _ _ _ _ H1 H2).
  apply String.eqb_neq in Hne. rewrite Hne. cbn [negb].
  unfold try_finally. rewrite (bind_ok _ _ _ _ _ H3), H4, restore_run.
  destruct (sh (checkout_command backup) (cwd s4) (disk s4))
    as [[status o] d] eqn:Esh.
  destruct (Z.eqb_spec status 0) as [->|Hst]; cbv iota beta;
    rewrite os_chdir_run; unfold spawned; cbn [cwd disk trace fs]; cbv zeta;
    destruct (FS.isdir _ (fs d)) eqn:Ed; cbn [disk trace];
    rewrite <- app_assoc; repeat split; eauto; try discriminate; try contradiction.
Qed.

(** On the demo repository: a scope on the feature branch, entered from
    master, whose block raises. *)
Lemma git_checkout_restores_on_raise_witness :
  let s := Demo.demo_state in
  let s4 := snd (execute (H := Demo.demo) (checkout_command "feature") []
                   (snd (git_branch "/repo" (snd (os_chdir "/repo" s))))) in
  let block := raise (H := Demo.demo) (A := unit) (Raised "boom") in
  let '(status, _, d) := sh (checkout_command "master") (cwd s4) (disk s4) in
  let '(r, s6) := git_checkout "/repo" "feature" block s in
  let home := PosixPath.join (cwd s4) (cwd s) in
  disk s6 = d
  /\ trace s6 = trace s4 ++ [Spawn (checkout_command "master") (cwd s4) status;
                             Chdir home]
  /\ (exists e', r = Raise e')
  /\ (status = 0%Z ->
      FS.isdir (PosixPath.components home) (fs d) = true ->
      r = Raise (Raised "boom"))
  /\ (forall head : @Ext Demo.demo -> string,
        (forall c d0 o d1,
            sh (checkout_command "master") c d0 = (0%Z, o, d1) ->
            head (ext d1) = "master") ->
        status = 0%Z -> head (ext (disk s6)) = "master").
Proof.
  cbv zeta.
  apply (git_checkout_restores_on_raise (H := Demo.demo)
           "/repo" "feature" "master"
           (raise (H := Demo.demo) (A := unit) (Raised "boom"))
           Demo.demo_state
           (snd (os_chdir (H := Demo.demo) "/repo" Demo.demo_state))
           (snd (git_branch (H := Demo.demo) "/repo"
                   (snd (os_chdir (H := Demo.demo) "/repo" Demo.demo_state))))
           (snd (execute (H := Demo.demo) (checkout_command "feature") []
                   (snd (git_branch (H := Demo.demo) "/repo"
                           (snd (os_chdir (H := Demo.demo) "/repo" Demo.demo_state))))))
           _ EmptyString (Raised "boom"));
    try (vm_compute; reflexivity).
  discriminate.
Defined.

(** C4, as the code has it.  The entry checkout stands inside the [try]
    block (lines 184-188): when it fails the block of the scope never
    runs, and the restoring checkout of the recorded branch is spawned all
    the same, on the state the failed checkout left, before the scope ends
    with an exception: the error of the entry checkout when the restoring
    checkout and the return to the caller's directory succeed. *)
Theorem git_checkout_entry_failure `{Platform} {A}
    (repository_dir commit backup : string) (block : M A)
    (s s1 s2 s3 : State) (e : exn) :
  os_chdir repository_dir s = (Ok tt, s1) ->
  git_branch repository_dir s1 = (Ok backup, s2) ->
  backup <> commit ->
  execute (checkout_command commit) [] s2 = (Raise e, s3) ->
  let '(status, _, d) := sh (checkout_command backup) (cwd s3) (disk s3) in
  let '(r, s6) := git_checkout repository_dir commit block s in
  let home := PosixPath.join (cwd s3) (cwd s) in
  e = Exception (error_message (checkout_command commit))
  /\ disk s6 = d
  /\ trace s6 = trace s3 ++ [Spawn (checkout_command backup) (cwd s3) status;
                             Chdir home]
  /\ (exists e', r = Raise e')
  /\ (status = 0%Z ->
      FS.isdir (PosixPath.components home) (fs d) = true -> r = Raise e)
  /\ (forall block' : M A,
        git_checkout repository_dir commit block' s
        = git_checkout repository_dir commit block s).
Proof.
  intros H1 H2 Hne H3.
  assert (Hrun : forall b : M A,
            git_checkout repository_dir commit b s =
            (let '(rf, s5) := (execute (checkout_command backup) [] ;; ret tt) s3 in
             let '(rc, s6) := os_chdir (cwd s) s5 in
             (match rc with
              | Ok _ => match rf with Ok _ => Raise e | Raise e' => Raise e' end
              | Raise e' => Raise e'
              end, s6))).
  { intros b. rewrite (git_checkout_run _ _ _ _ _ _ _ H1 H2).
    apply String.eqb_neq in Hne. rewrite Hne. cbn [negb].
    unfold try_finally. rewrite (bind_raise _ _ _ _ _ H3).
    destruct ((execute (checkout_command backup) [] ;; ret tt) s3) as [[[]|e5] s5];
      destruct (os_chdir (cwd s) s5) as [[[]|e6] s6]; reflexivity. }
  apply execute_raise in H3 as (st & o & d3 & _ & _ & He & _).
  assert (Hblock : forall block' : M A,
            git_checkout repository_dir commit block' s
            = git_checkout repository_dir commit block s)
    by (intros b; now rewrite !Hrun).
  revert Hblock. generalize (Hrun block).
  generalize (git_checkout repository_dir commit block s) as result.
  intros result ->. rewrite restore_run. intros Hblock.
  destruct (sh (checkout_command backup) (cwd s3) (disk s3)) as [[status o'] d].
  destruct (Z.eqb_spec status 0) as [->|Hst]; cbv iota beta;
    rewrite os_chdir_run; unfold spawned; cbn [cwd disk trace fs]; cbv zeta;
    destruct (FS.isdir _ (fs d)) eqn:Ed; cbn [disk trace];
    rewrite <- app_assoc; repeat split; eauto; try discriminate; try contradiction.
  all: intros b; rewrite (Hblock b), os_chdir_run; unfold spawned;
    cbn [cwd disk trace fs]; cbv zeta; rewrite Ed; cbn [disk trace];
    rewrite <- app_assoc; reflexivity.
Qed.

(** On the demo repository: a scope on a revision that does not exist. *)
Lemma git_checkout_entry_failure_witness :
  let s := Demo.demo_state in
  let s3 := snd (execute (H := Demo.demo) (checkout_command "nowhere") []
                   (snd (git_branch "/repo" (snd (os_chdir "/repo" s))))) in
  let block := ret (H := Demo.demo) tt in
  let e := Exception (error_message (checkout_command "nowhere")) in
  let '(status, _, d) := sh (checkout_command "master") (cwd s3) (disk s3) in
  let '(r, s6) := git_checkout "/repo" "nowhere" block s in
  let home := PosixPath.join (cwd s3) (cwd s) in
  e = Exception (error_message (checkout_command "nowhere"))
  /\ disk s6 = d
  /\ trace s6 = trace s3 ++ [Spawn (checkout_command "master") (cwd s3) status;
                             Chdir home]
  /\ (exists e', r = Raise e')
  /\ (status = 0%Z ->
      FS.isdir (PosixPath.components home) (fs d) = true -> r = Raise e)
  /\ (forall block' : M unit,
        git_checkout "/repo" "nowhere" block' s
        = git_checkout "/repo" "nowhere" block s).
Proof.
  cbv zeta.
  apply (git_checkout_entry_failure (H := Demo.demo)
           "/repo" "nowhere" "master" (ret (H := Demo.demo) tt)
           Demo.demo_state
           (snd (os_chdir (H := Demo.demo) "/repo" Demo.demo_state))
           (snd (git_branch (H := Demo.demo) "/repo"
                   (snd (os_chdir (H := Demo.demo) "/repo" Demo.demo_state))))
           _ (Exception (error_message (checkout_command "nowhere"))));
    try (vm_compute; reflexivity).
  discriminate.
Defined.

(** C4, as stated, fails: on the demo repository the checkout of a
    revision that does not exist exits with status 1, and the checkout of
    master, the recorded branch, is spawned after it. *)
Lemma git_checkout_restores_after_failed_entry :
  trace (snd (git_checkout (H := Demo.demo) "/repo" "nowhere"
                (ret tt) Demo.demo_state))
  = [Chdir "/repo"; Chdir "/repo"; Spawn branch_query "/repo" 0; Chdir "/repo";
     Spawn (checkout_command "nowhere") "/repo" 1;
     Spawn (checkout_command "master") "/repo" 0;
     Chdir "/home"].
Proof. vm_compute. reflexivity. Qed.

(* ================================================================== *)
(** ** The compiled-form comparator *)
(* ================================================================== *)

Section Comparator.
Context `{Platform}.

(** A [git_checkout] scope that returned, step by step. *)
Lemma git_checkout_ok {A} repository_dir commit (block : M A) s a s' :
  git_checkout repository_dir commit block s = (Ok a, s') ->
  exists s1 reported s2 s3 s4 s5,
    os_chdir repository_dir s = (Ok tt, s1)
    /\ git_branch repository_dir s1 = (Ok reported, s2)
    /\ scope_entry reported commit s2 s3
    /\ block s3 = (Ok a, s4)
    /\ scope_exit reported commit s4 s5
    /\ os_chdir (cwd s) s5 = (Ok tt, s').
Proof.
  intros Hc. unfold git_checkout in Hc.
  apply chdir_ok in Hc as (s1 & s5 & H1 & Hc & H5).
  apply bind_ok_inv in Hc as (reported & s2 & H2 & Hc).
  exists s1, reported, s2. unfold scope_entry, scope_exit.
  destruct (String.eqb reported commit); cbn [negb] in Hc.
  - exists s2, s5, s5. repeat split; auto.
  - apply try_finally_ok in Hc as (s4 & Hb & Hf).
    apply bind_ok_inv in Hb as (o & s3 & H3 & Hb).
    apply bind_ok_inv in Hf as (o' & s5' & H4 & [= <-]).
    apply execute_ok in H3 as (d3 & Hs3 & ->).
    apply execute_ok in H4 as (d4 & Hs4 & ->).
    exists (spawned (checkout_command commit) 0 d3 s2), s4,
           (spawned (checkout_command reported) 0 d4 s4).
    unfold checked_out. repeat split; eauto.
Qed.




(** The state a successful checkout leaves, under the contract. *)
Lemma checked_out_effect head known repository target s s' :
  git_contract head known repository ->
  known target ->
  checked_out target s s' ->
  cwd s' = cwd s
  /\ head (ext (disk s')) = target
  /\ (forall q, FS.diverge repository q = true ->
                FS.lookup q (fs (disk s')) = FS.lookup q (fs (disk s)))
  /\ trace s' = trace s ++ [Spawn (checkout_command target) (cwd s) 0].
Proof.
  intros [_ Hmoves Hconf] Hk (o & d & Hsh & ->). unfold spawned. cbn.
  repeat split; eauto.
Qed.

(** The state in which the block of a scope starts, under the contract:
    in the repository, with the branch the query reported still checked
    out and the disk untouched. *)
Lemma scope_prologue head known repository repository_dir s s1 reported s2 :
  git_contract head known repository ->
  PosixPath.isabs (cwd s) = true ->
  os_chdir repository_dir s = (Ok tt, s1) ->
  git_branch repository_dir s1 = (Ok reported, s2) ->
  reported = head (ext (disk s))
  /\ cwd s2 = PosixPath.join (cwd s) repository_dir
  /\ PosixPath.isabs (cwd s2) = true
  /\ disk s2 = disk s
  /\ trace s2 = trace s ++
       [Chdir (cwd s2); Chdir (PosixPath.join (cwd s2) repository_dir);
        Spawn branch_query (PosixPath.join (cwd s2) repository_dir) 0;
        Chdir (cwd s2)].
Proof.
  intros [Hq _ _] Habs H1 H2.
  apply os_chdir_ok in H1. subst s1.
  apply git_branch_ok in H2 as (o & d & Hsh & -> & ->). cbn [cwd disk trace] in *.
  destruct (Hq _ _ _ _ Hsh) as [Hs ->].
  assert (Hwd : PosixPath.isabs (PosixPath.join (cwd s) repository_dir) = true)
    by now apply PathFacts.isabs_join.
  rewrite (PathFacts.join_absolute _ _ Hwd).
  repeat split; auto. now rewrite <- app_assoc.
Qed.

End Comparator.

Section NetEffect.
Context `{Platform}.
Variable head : Ext -> string.
Variable known : string -> Prop.
Variable repository : FS.path.
Hypothesis git : git_contract head known repository.

Lemma spawns_snoc t command c status :
  spawns (t ++ [Spawn command c status]) = spawns t ++ [command].
Proof. now rewrite spawns_app. Qed.

(** Into a scope: from the call to the start of the block. *)
Lemma scope_way_in repository_dir commit s s1 reported s2 s3 :
  PosixPath.isabs (cwd s) = true ->
  known commit ->
  os_chdir repository_dir s = (Ok tt, s1) ->
  git_branch repository_dir s1 = (Ok reported, s2) ->
  scope_entry reported commit s2 s3 ->
  reported = head (ext (disk s))
  /\ cwd s3 = PosixPath.join (cwd s) repository_dir
  /\ PosixPath.isabs (cwd s3) = true
  /\ head (ext (disk s3)) = commit
  /\ (forall q, FS.diverge repository q = true ->
                FS.lookup q (fs (disk s3)) = FS.lookup q (fs (disk s)))
  /\ spawns (trace s3) = spawns (trace s) ++
       branch_query :: (if String.eqb reported commit then []
                        else [checkout_command commit])
  /\ incl (trace s) (trace s3).
Proof.
  intros Habs Hk H1 H2 H3.
  destruct (scope_prologue _ _ _ _ _ _ _ _ git Habs H1 H2)
    as (Hr & Hc & Ha & Hd & Ht).
  assert (Hs2 : spawns (trace s2) = spawns (trace s) ++ [branch_query]).
  { rewrite Ht, spawns_app. reflexivity. }
  assert (Hi2 : incl (trace s) (trace s2)).
  { rewrite Ht. now apply incl_appl, incl_refl. }
  unfold scope_entry in H3.
  destruct (String.eqb reported commit) eqn:E.
  - subst s3. apply String.eqb_eq in E.
    repeat split; auto; try congruence.
    all: try (rewrite Hd; congruence).
    all: try (intros q _; now rewrite Hd).
  - destruct (checked_out_effect _ _ _ _ _ _ git Hk H3) as (Hc3 & Hh3 & Hf3 & Ht3).
    repeat split; auto; try congruence.
    all: try (intros q Hq; rewrite (Hf3 q Hq); now rewrite Hd).
    all: try (rewrite Ht3, spawns_snoc, Hs2, <- app_assoc; reflexivity).
    all: try (rewrite Ht3; now apply incl_appl).
Qed.

(** Out of a scope: from the end of the block to the return. *)
Lemma scope_way_out commit reported home s4 s5 s' :
  PosixPath.isabs home = true ->
  known reported ->
  head (ext (disk s4)) = commit ->
  scope_exit reported commit s4 s5 ->
  os_chdir home s5 = (Ok tt, s') ->
  cwd s' = home
  /\ head (ext (disk s')) = reported
  /\ (forall q, FS.diverge repository q = true ->
                FS.lookup q (fs (disk s')) = FS.lookup q (fs (disk s4)))
  /\ spawns (trace s') = spawns (trace s4) ++
       (if String.eqb reported commit then [] else [checkout_command reported])
  /\ incl (trace s4) (trace s').
Proof.
  intros Habs Hk Hh H5 H6.
  apply os_chdir_ok in H6. subst s'. cbn [cwd disk trace].
  rewrite (PathFacts.join_absolute _ _ Habs), spawns_app. cbn [spawns].
  rewrite app_nil_r.
  unfold scope_exit in H5.
  destruct (String.eqb reported commit) eqn:E.
  - subst s5. apply String.eqb_eq in E.
    repeat split; auto; try congruence.
    all: try (now rewrite app_nil_r).
    all: try (now apply incl_appl, incl_refl).
  - destruct (checked_out_effect _ _ _ _ _ _ git Hk H5) as (Hc5 & Hh5 & Hf5 & Ht5).
    repeat split; auto.
    all: try (rewrite Ht5; apply spawns_snoc).
    all: try (rewrite Ht5; now apply incl_appl, incl_appl, incl_refl).
Qed.

End NetEffect.



Section SameContent.
Context `{Platform}.
Variable compiled : string -> string.


End SameContent.


(* ================================================================== *)
(** ** The demo platform honours the contracts *)
(* ================================================================== *)

Module DemoFacts.
Import Demo.

Lemma demo_query c (d : Disk branch) out d' :
  sh (H := demo) branch_query c d = (0%Z, out, d') ->
  PyStr.strip out = branch_name (ext d) /\ d' = d.
Proof.
  change (sh (H := demo) branch_query c d)
    with (if in_repository c then (0%Z, line (branch_name (ext d)), d)
          else (128%Z, EmptyString, d)).
  destruct (in_repository c); [|discriminate].
  intros [= <- <-]. split; [|reflexivity]. now destruct (ext d).
Qed.

Lemma sh_checkout_master c d :
  sh (H := demo) (checkout_command "master") c d = checkout_result Master c d.
Proof. reflexivity. Qed.

Lemma sh_checkout_feature c d :
  sh (H := demo) (checkout_command "feature") c d = checkout_result Feature c d.
Proof. reflexivity. Qed.

Lemma checkout_result_effect b c (d : Disk branch) status out d' :
  checkout_result b c d = (status, out, d') ->
  (status = 0%Z -> ext d' = b
                   /\ FS.read ["repo"; "b.py"] (fs d') = assoc "b.py" (tree_of b))
  /\ (forall q, FS.diverge ["repo"] q = true ->
                FS.lookup q (fs d') = FS.lookup q (fs d)).
Proof.
  unfold checkout_result.
  destruct (in_repository c); [|intros [= <- _ <-]; split; [discriminate|auto]].
  destruct (FS.put repository_path _ (fs d)) as [t|] eqn:Ep;
    [|intros [= <- _ <-]; split; [discriminate|auto]].
  intros [= <- _ <-]. cbn [fs ext]. split.
  - intros _. split; [reflexivity|]. unfold FS.read.
    change ["repo"; "b.py"] with (repository_path ++ ["b.py"]).
    rewrite FSFacts.lookup_app, (FSFacts.lookup_put_eq _ _ _ _ Ep).
    now destruct b.
  - intros q Hq. apply (FSFacts.lookup_put_diverge _ _ _ _ _ Ep Hq).
Qed.

Lemma demo_checkout commit c (d : Disk branch) status out d' :
  demo_known commit ->
  sh (H := demo) (checkout_command commit) c d = (status, out, d') ->
  (status = 0%Z -> branch_name (ext d') = commit
                   /\ FS.read ["repo"; "b.py"] (fs d') = demo_blob commit)
  /\ (forall q, FS.diverge ["repo"] q = true ->
                FS.lookup q (fs d') = FS.lookup q (fs d)).
Proof.
  intros [-> | ->]; [rewrite sh_checkout_master | rewrite sh_checkout_feature];
    intros Hr; destruct (checkout_result_effect _ _ _ _ _ _ Hr) as [Hok Hframe];
    (split; [|exact Hframe]); intros Hs; destruct (Hok Hs) as [He Hb];
    (split; [exact (f_equal branch_name He) | exact Hb]).
Qed.

Lemma demo_git : git_contract (H := demo) branch_name demo_known ["repo"].
Proof.
  split.
  - apply demo_query.
  - intros commit Hk c d out d' Hsh.
    now apply (demo_checkout _ _ _ _ _ _ Hk Hsh).
  - intros commit Hk c d status out d' q Hsh.
    now apply (demo_checkout _ _ _ _ _ _ Hk Hsh).
Qed.








End DemoFacts.




(* ================================================================== *)
(** ** Further properties of the scopes and of the enumerator *)
(* ================================================================== *)

(** The scoped change of directory (lines 71-78): once inside, whatever
    its block does and however the block ends, the scope touches nothing
    on disk and its last act is the return to the directory recorded on
    entry; when that directory still stands the process is back in it and
    the outcome of the block is the outcome of the scope. *)
Theorem chdir_restores `{Platform} {A} (path : string) (block : M A)
    (s s1 : State) :
  PosixPath.isabs (cwd s) = true ->
  os_chdir path s = (Ok tt, s1) ->
  let '(r1, s2) := block s1 in
  let '(r, s3) := chdir path block s in
  disk s3 = disk s2
  /\ trace s3 = trace s2 ++ [Chdir (cwd s)]
  /\ (FS.isdir (PosixPath.components (cwd s)) (fs (disk s2)) = true ->
      cwd s3 = cwd s /\ r = r1).
Proof.
  intros Habs H1. rewrite (chdir_run _ _ _ _ H1). unfold try_finally.
  destruct (block s1) as [r1 s2]. rewrite os_chdir_run. cbv zeta.
  rewrite (PathFacts.join_absolute _ _ Habs).
  destruct (FS.isdir _ (fs (disk s2))); cbn [cwd disk trace];
    repeat split; auto; discriminate.
Qed.

Lemma chdir_restores_witness :
  let s := Demo.demo_state in
  let s1 := snd (os_chdir (H := Demo.demo) "/repo" s) in
  let block := raise (H := Demo.demo) (A := unit) (Raised "boom") in
  let '(r1, s2) := block s1 in
  let '(r, s3) := chdir "/repo" block s in
  disk s3 = disk s2
  /\ trace s3 = trace s2 ++ [Chdir (cwd s)]
  /\ (FS.isdir (PosixPath.components (cwd s)) (fs (disk s2)) = true ->
      cwd s3 = cwd s /\ r = r1).
Proof.
  cbv zeta.
  apply (chdir_restores (H := Demo.demo) "/repo"
           (raise (H := Demo.demo) (A := unit) (Raised "boom"))
           Demo.demo_state (snd (os_chdir (H := Demo.demo) "/repo" Demo.demo_state)));
    reflexivity.
Defined.

Section Enumerator.
Context `{Platform}.

(** The loop of lines 112-116 over lines none of which is empty, drained
    into a list: it appends the selected file names, in order. *)
Lemma for_lines_selected status lines acc s :
  Forall (fun line => line <> EmptyString) lines ->
  for_lines lines
    (fun acc line =>
       match PyStr.item0 line with
       | None => raise IndexError
       | Some file_status =>
           let filename := PyStr.strip (PyStr.slice1 line) in
           if String.eqb file_status status then ret (acc ++ [filename])
           else ret acc
       end) acc s
  = (Ok (acc ++ selected status lines), s).
Proof.
  intros Hall. revert acc. induction Hall as [|line lines Hne _ IH]; intros acc.
  - cbn. now rewrite app_nil_r.
  - cbn [for_lines]. unfold bind, selected. cbn [filter]. unfold has_status.
    destruct line as [|c line]; [congruence|]. cbn [PyStr.item0].
    destruct (String.eqb (String c EmptyString) status).
    + unfold ret at 1. rewrite IH. cbn [map]. unfold selected.
      now rewrite <- app_assoc.
    + unfold ret at 1. rewrite IH. reflexivity.
Qed.

End Enumerator.

(** The revision enumerator on a diff output without empty line (lines
    107-116): drained by [list] it returns, in order, the stripped
    remainder of every line whose first character is the status asked
    for, and the process is back in the directory of the caller. *)
Theorem git_status_files_selects `{Platform}
    (repository_dir start_commit end_commit status : string)
    (s s1 : State) (out : string) (d : Disk Ext) :
  PosixPath.isabs (cwd s) = true ->
  os_chdir repository_dir s = (Ok tt, s1) ->
  sh (diff_command start_commit end_commit) (cwd s1) (disk s1) = (0%Z, out, d) ->
  Forall (fun line => line <> EmptyString) (status_lines out) ->
  FS.isdir (PosixPath.components (cwd s)) (fs d) = true ->
  py_list (git_status_files repository_dir start_commit end_commit status) s
  = (Ok (selected status (status_lines out)),
     mkState (cwd s) d
       (trace s1 ++ [Spawn (diff_command start_commit end_commit) (cwd s1) 0;
                     Chdir (cwd s)])).
Proof.
  intros Habs H1 Hsh Hlines Hdir. unfold py_list, git_status_files.
  rewrite (chdir_run _ _ _ _ H1). unfold try_finally, bind.
  change (String.append "git diff --name-status "
            (String.append start_commit (String.append " " end_commit)))
    with (diff_command start_commit end_commit).
  rewrite execute_plain, Hsh. cbn [Z.eqb].
  fold (status_lines out). rewrite (for_lines_selected _ _ _ _ Hlines).
  rewrite os_chdir_run. unfold spawned. cbn [cwd disk trace fs app]. cbv zeta.
  rewrite (PathFacts.join_absolute _ _ Habs), Hdir, <- app_assoc. reflexivity.
Qed.

(** On the demo repository, between master and the feature branch: one
    file is modified. *)
Lemma git_status_files_selects_witness :
  let s := Demo.demo_state in
  let s1 := snd (os_chdir (H := Demo.demo) "/repo" s) in
  py_list (git_status_files "/repo" "master" "feature" "M") s
  = (Ok (selected "M" (status_lines (Demo.name_status (Demo.tree_of Demo.Master)
                                       (Demo.tree_of Demo.Feature)))),
     mkState (cwd s) (disk s)
       (trace s1 ++ [Spawn (diff_command "master" "feature") (cwd s1) 0;
                     Chdir (cwd s)])).
Proof.
  cbv zeta.
  apply (git_status_files_selects (H := Demo.demo)
           "/repo" "master" "feature" "M" Demo.demo_state
           (snd (os_chdir (H := Demo.demo) "/repo" Demo.demo_state))
           (Demo.name_status (Demo.tree_of Demo.Master) (Demo.tree_of Demo.Feature))
           (disk Demo.demo_state)); try reflexivity.
  vm_compute. repeat constructor; discriminate.
Defined.

(* ================================================================== *)
(** ** The branch query and the scoped checkout, on their other paths *)
(* ================================================================== *)

Section BranchQuery.
Context `{Platform}.

(** [git_branch] once inside the repository: the query, then the way
    back. *)
Lemma git_branch_run repository_dir s s1 :
  os_chdir repository_dir s = (Ok tt, s1) ->
  git_branch repository_dir s =
  let '(status, out, d) := sh branch_query (cwd s1) (disk s1) in
  let '(rc, s2) := os_chdir (cwd s) (spawned branch_query status d s1) in
  (match rc with
   | Raise e => Raise e
   | Ok _ => if (status =? 0)%Z then Ok (PyStr.strip out)
             else Raise (Exception (error_message branch_query))
   end, s2).
Proof.
  intros H1. unfold git_branch. rewrite (chdir_run _ _ _ _ H1).
  unfold try_finally, bind. rewrite execute_plain.
  change "git rev-parse --abbrev-ref HEAD"%string with branch_query.
  destruct (sh branch_query (cwd s1) (disk s1)) as [[status out] d].
  destruct (status =? 0)%Z; unfold ret; cbv beta iota;
    destruct (os_chdir (cwd s) (spawned branch_query status d s1)) as [[[]|e] s2];
    reflexivity.
Qed.

End BranchQuery.

(** [git_branch] (lines 172-175), from an absolute working directory that
    is still there after the query: it returns the output of the branch
    query without its surrounding white space when the query exits with
    status zero and raises the error of [execute] otherwise; either way
    the query is the only child spawned, in the repository, and the
    process is back in the directory of the caller. *)
Theorem git_branch_reports `{Platform} (repository_dir : string) (s s1 : State) :
  PosixPath.isabs (cwd s) = true ->
  os_chdir repository_dir s = (Ok tt, s1) ->
  let '(status, out, d) := sh branch_query (cwd s1) (disk s1) in
  FS.isdir (PosixPath.components (cwd s)) (fs d) = true ->
  git_branch repository_dir s =
    (if (status =? 0)%Z then Ok (PyStr.strip out)
     else Raise (Exception (error_message branch_query)),
     mkState (cwd s) d
       (trace s1 ++ [Spawn branch_query (cwd s1) status; Chdir (cwd s)])).
Proof.
  intros Habs H1. rewrite (git_branch_run _ _ _ H1).
  destruct (sh branch_query (cwd s1) (disk s1)) as [[status out] d].
  intros Hdir. rewrite os_chdir_run. unfold spawned. cbn [cwd disk trace fs].
  cbv zeta. rewrite (PathFacts.join_absolute _ _ Habs), Hdir, <- app_assoc.
  reflexivity.
Qed.

(** On the demo repository, from [/home]. *)
Lemma git_branch_reports_witness :
  let s := Demo.demo_state in
  let s1 := snd (os_chdir (H := Demo.demo) "/repo" s) in
  let '(status, out, d) := sh branch_query (cwd s1) (disk s1) in
  FS.isdir (PosixPath.components (cwd s)) (fs d) = true ->
  git_branch "/repo" s =
    (if (status =? 0)%Z then Ok (PyStr.strip out)
     else Raise (Exception (error_message branch_query)),
     mkState (cwd s) d
       (trace s1 ++ [Spawn branch_query (cwd s1) status; Chdir (cwd s)])).
Proof.
  cbv zeta.
  apply (git_branch_reports (H := Demo.demo) "/repo" Demo.demo_state
           (snd (os_chdir (H := Demo.demo) "/repo" Demo.demo_state)));
    reflexivity.
Defined.

(** [git_checkout] when the branch query fails (lines 181-182): the
    block never runs and no checkout is spawned; the scope only returns
    to the directory of the caller and raises. *)
Theorem git_checkout_query_failure `{Platform} {A}
    (repository_dir commit : string) (block : M A)
    (s s1 s2 : State) (e : exn) :
  os_chdir repository_dir s = (Ok tt, s1) ->
  git_branch repository_dir s1 = (Raise e, s2) ->
  let '(r, s3) := git_checkout repository_dir commit block s in
  disk s3 = disk s2
  /\ trace s3 = trace s2 ++ [Chdir (PosixPath.join (cwd s2) (cwd s))]
  /\ (r = Raise e \/ r = Raise (OSError (cwd s))).
Proof.
  intros H1 H2. unfold git_checkout. rewrite (chdir_run _ _ _ _ H1).
  unfold try_finally. rewrite (bind_raise _ _ _ _ _ H2).
  rewrite os_chdir_run. cbv zeta.
  destruct (FS.isdir _ (fs (disk s2))); cbn [disk trace]; auto.
Qed.

(** On the demo, for a directory that is no repository: the query fails
    in [/tmp]. *)
Lemma git_checkout_query_failure_witness :
  let s := Demo.demo_state in
  let s1 := snd (os_chdir (H := Demo.demo) "/tmp" s) in
  let s2 := snd (git_branch (H := Demo.demo) "/tmp" s1) in
  let '(r, s3) := git_checkout "/tmp" "feature" (ret tt) s in
  disk s3 = disk s2
  /\ trace s3 = trace s2 ++ [Chdir (PosixPath.join (cwd s2) (cwd s))]
  /\ (r = Raise (Exception (error_message branch_query))
      \/ r = Raise (OSError (cwd s))).
Proof.
  cbv zeta.
  apply (git_checkout_query_failure (H := Demo.demo) "/tmp" "feature" (ret tt)
           Demo.demo_state
           (snd (os_chdir (H := Demo.demo) "/tmp" Demo.demo_state))
           (snd (git_branch (H := Demo.demo) "/tmp"
                   (snd (os_chdir (H := Demo.demo) "/tmp" Demo.demo_state))))
           (Exception (error_message branch_query)));
    reflexivity.
Defined.

(** [git_checkout] on a normal exit from another branch (lines 183-190):
    after the target was checked out and the block returned, the scope
    spawns the checkout of the branch recorded on entry in the state the
    block left, then returns to the directory of the caller.  It hands
    over the value of the block when that checkout and the return
    succeed; a restoring checkout that fails replaces the value of the
    block by an exception. *)
Theorem git_checkout_restores_on_return `{Platform} {A}
    (repository_dir commit backup : string) (block : M A)
    (s s1 s2 s3 s4 : State) (out : string) (a : A) :
  os_chdir repository_dir s = (Ok tt, s1) ->
  git_branch repository_dir s1 = (Ok backup, s2) ->
  backup <> commit ->
  execute (checkout_command commit) [] s2 = (Ok out, s3) ->
  block s3 = (Ok a, s4) ->
  let '(status, _, d) := sh (checkout_command backup) (cwd s4) (disk s4) in
  let '(r, s6) := git_checkout repository_dir commit block s in
  let home := PosixPath.join (cwd s4) (cwd s) in
  disk s6 = d
  /\ trace s6 = trace s4 ++ [Spawn (checkout_command backup) (cwd s4) status;
                             Chdir home]
  /\ (status = 0%Z ->
      FS.isdir (PosixPath.components home) (fs d) = true ->
      r = Ok a /\ cwd s6 = home)
  /\ (status <> 0%Z ->
      r = Raise (Exception (error_message (checkout_command backup)))
      \/ r = Raise (OSError (cwd s))).
Proof.
  intros H1 H2 Hne H3 H4. rewrite (git_checkout_run _ _ _ _ _ _ _ H1 H2).
  apply String.eqb_neq in Hne. rewrite Hne. cbn [negb].
  unfold try_finally. rewrite (bind_ok _ _ _ _ _ H3), H4, restore_run.
  destruct (sh (checkout_command backup) (cwd s4) (disk s4))
    as [[status o] d] eqn:Esh.
  destruct (Z.eqb_spec status 0) as [->|Hst]; cbv iota beta;
    rewrite os_chdir_run; unfold spawned; cbn [cwd disk trace fs]; cbv zeta;
    destruct (FS.isdir _ (fs d)) eqn:Ed; cbn [disk trace cwd];
    rewrite <- app_assoc; repeat split; auto; try discriminate; try contradiction.
Qed.

(** On the demo repository: the style checker run on the feature branch,
    from master. *)
Lemma git_checkout_restores_on_return_witness :
  let s := Demo.demo_state in
  let s3 := snd (execute (H := Demo.demo) (checkout_command "feature") []
                   (snd (git_branch "/repo" (snd (os_chdir "/repo" s))))) in
  let s4 := snd (flake8_count "." s3) in
  let '(status, _, d) := sh (checkout_command "master") (cwd s4) (disk s4) in
  let '(r, s6) := git_checkout "/repo" "feature" (flake8_count ".") s in
  let home := PosixPath.join (cwd s4) (cwd s) in
  disk s6 = d
  /\ trace s6 = trace s4 ++ [Spawn (checkout_command "master") (cwd s4) status;
                             Chdir home]
  /\ (status = 0%Z ->
      FS.isdir (PosixPath.components home) (fs d) = true ->
      r = Ok 0%Z /\ cwd s6 = home)
  /\ (status <> 0%Z ->
      r = Raise (Exception (error_message (checkout_command "master")))
      \/ r = Raise (OSError (cwd s))).
Proof.
  cbv zeta.
  apply (git_checkout_restores_on_return (H := Demo.demo)
           "/repo" "feature" "master" (flake8_count ".")
           Demo.demo_state
           (snd (os_chdir (H := Demo.demo) "/repo" Demo.demo_state))
           (snd (git_branch (H := Demo.demo) "/repo"
                   (snd (os_chdir (H := Demo.demo) "/repo" Demo.demo_state))))
           (snd (execute (H := Demo.demo) (checkout_command "feature") []
                   (snd (git_branch (H := Demo.demo) "/repo"
                           (snd (os_chdir (H := Demo.demo) "/repo" Demo.demo_state))))))
           _ EmptyString 0%Z);
    try (vm_compute; reflexivity).
  discriminate.
Defined.

(* ================================================================== *)
(** ** The parser of the diff output *)
(* ================================================================== *)

Module StripFacts.
Import PyStr.

Lemma rstrip_cons c s :
  rstrip s <> EmptyString -> rstrip (String c s) = String c (rstrip s).
Proof. cbn [rstrip]. destruct (rstrip s); congruence. Qed.

Lemma rstrip_app a b :
  rstrip b <> EmptyString ->
  rstrip (String.append a b) = String.append a (rstrip b).
Proof.
  intros Hb. induction a as [|c a IH]; [reflexivity|].
  cbn [String.append]. rewrite rstrip_cons; rewrite IH; [reflexivity|].
  destruct a; [exact Hb | discriminate].
Qed.

Lemma rstrip_snoc_space s c :
  is_space c = true -> rstrip (String.append s (String c EmptyString)) = rstrip s.
Proof.
  intros Hc. induction s as [|x s IH].
  - cbn. now rewrite Hc.
  - cbn [String.append rstrip]. now rewrite IH.
Qed.

Lemma rstrip_idem s : rstrip (rstrip s) = rstrip s.
Proof.
  induction s as [|c s IH]; [reflexivity|].
  cbn [rstrip]. destruct (rstrip s) as [|x r] eqn:E.
  - destruct (is_space c) eqn:Ec; [reflexivity|]. cbn. now rewrite Ec.
  - cbn [rstrip] in *. now rewrite IH.
Qed.

Lemma lstrip_head s :
  lstrip s = EmptyString
  \/ exists c t, lstrip s = String c t /\ is_space c = false.
Proof.
  induction s as [|c s IH]; [now left|].
  cbn [lstrip]. destruct (is_space c) eqn:Ec; [exact IH|]. right. eauto.
Qed.

Lemma rstrip_keeps_head c t :
  is_space c = false -> exists r, rstrip (String c t) = String c r.
Proof.
  intros Hc. cbn [rstrip]. destruct (rstrip t); rewrite ?Hc; eauto.
Qed.

Lemma lstrip_strip s : lstrip (strip s) = strip s.
Proof.
  unfold strip. destruct (lstrip_head s) as [->|(c & t & -> & Hc)]; [reflexivity|].
  destruct (rstrip_keeps_head c t Hc) as [r ->]. cbn [lstrip]. now rewrite Hc.
Qed.

(** [s.strip().strip() == s.strip()] *)
Lemma strip_idem s : strip (strip s) = strip s.
Proof.
  unfold strip at 1. rewrite lstrip_strip. unfold strip. apply rstrip_idem.
Qed.

Lemma strip_fixed p : strip p = p -> lstrip p = p /\ rstrip p = p.
Proof.
  intros Hp. split.
  - rewrite <- Hp at 1. rewrite lstrip_strip. exact Hp.
  - rewrite <- Hp at 1. unfold strip. rewrite rstrip_idem. exact Hp.
Qed.

Lemma split_none sep s : count_char sep s = 0 -> split sep s = [s].
Proof.
  induction s as [|c s IH]; [reflexivity|].
  cbn [count_char split]. destruct (Ascii.eqb c sep); [discriminate|].
  intros Hs. now rewrite (IH Hs).
Qed.

End StripFacts.

Section NameStatus.
Import PyStr.

Lemma status_record_one_line change :
  plain_change change -> count_char LF (status_record change) = 0.
Proof.
  intros (Hc & _ & _ & Hp). unfold status_record. cbn [count_char].
  rewrite Hp. destruct (Ascii.eqb_spec (fst change) LF) as [E|_].
  - rewrite E in Hc. discriminate.
  - reflexivity.
Qed.

Lemma rstrip_status_record change :
  plain_change change ->
  rstrip (String.append (status_record change) (String LF EmptyString))
  = status_record change.
Proof.
  intros (_ & Hne & Hp & _). rewrite StripFacts.rstrip_snoc_space by reflexivity.
  destruct (StripFacts.strip_fixed _ Hp) as [_ Hr].
  unfold status_record.
  change (String (fst change) (String (ascii_of_nat 9) (snd change)))
    with (String.append (String (fst change) (String (ascii_of_nat 9) EmptyString))
            (snd change)).
  rewrite StripFacts.rstrip_app; rewrite Hr; auto.
Qed.

(** The output of git without its last line feed: the records, joined. *)
Lemma rstrip_name_status_output changes :
  changes <> [] -> Forall plain_change changes ->
  rstrip (name_status_output changes)
  = join (String LF EmptyString) (map status_record changes).
Proof.
  intros Hne Hall. induction Hall as [|change rest Hc Hrest IH]; [congruence|].
  destruct rest as [|next rest].
  - cbn [name_status_output map join]. now apply rstrip_status_record.
  - specialize (IH ltac:(discriminate)).
    change (name_status_output (change :: next :: rest))
      with (String.append (status_record change)
              (String LF (name_status_output (next :: rest)))).
    change (join (String LF EmptyString) (map status_record (change :: next :: rest)))
      with (String.append (status_record change)
              (String LF (join (String LF EmptyString)
                            (map status_record (next :: rest))))).
    assert (Hj : join (String LF EmptyString) (map status_record (next :: rest))
                 <> EmptyString).
    { cbn [map join]. destruct (map status_record rest); discriminate. }
    rewrite StripFacts.rstrip_app.
    + rewrite StripFacts.rstrip_cons; rewrite IH; [reflexivity | exact Hj].
    + rewrite StripFacts.rstrip_cons; rewrite IH; [discriminate | exact Hj].
Qed.

Lemma split_joined changes :
  changes <> [] -> Forall plain_change changes ->
  split LF (join (String LF EmptyString) (map status_record changes))
  = map status_record changes.
Proof.
  intros Hne Hall. induction Hall as [|change rest Hc Hrest IH]; [congruence|].
  destruct rest as [|next rest].
  - cbn [map join]. apply StripFacts.split_none. now apply status_record_one_line.
  - specialize (IH ltac:(discriminate)).
    change (join (String LF EmptyString) (map status_record (change :: next :: rest)))
      with (String.append (status_record change)
              (String LF (join (String LF EmptyString)
                            (map status_record (next :: rest))))).
    rewrite PyStrFacts.split_append, IH.
    rewrite (StripFacts.split_none _ _ (status_record_one_line _ Hc)).
    reflexivity.
Qed.

(** Line 111 on the output of git: one line per change. *)
Lemma status_lines_name_status_output changes :
  changes <> [] -> Forall plain_change changes ->
  status_lines (name_status_output changes) = map status_record changes.
Proof.
  intros Hne Hall. unfold status_lines, strip.
  assert (Hl : lstrip (name_status_output changes) = name_status_output changes).
  { destruct Hall as [|change rest (Hc & _) _]; [congruence|].
    cbn [name_status_output status_record String.append lstrip]. now rewrite Hc. }
  rewrite Hl, (rstrip_name_status_output _ Hne Hall).
  now apply split_joined.
Qed.

(** Lines 113-116 on these lines: the paths of the changes selected. *)
Lemma selected_status_records status changes :
  Forall plain_change changes ->
  selected status (map status_record changes) = paths_with status changes.
Proof.
  intros Hall. unfold selected, paths_with.
  induction Hall as [|change rest (_ & _ & Hp & _) _ IH]; [reflexivity|].
  cbn [map filter]. unfold has_status at 1. cbn [status_record item0].
  destruct (String.eqb (String (fst change) EmptyString) status);
    [|exact IH].
  cbn [map]. rewrite IH. f_equal.
  cbn [slice1]. unfold strip. cbn [lstrip]. change (is_space (ascii_of_nat 9)) with true.
  cbv iota. exact Hp.
Qed.

Lemma status_records_nonempty changes :
  Forall (fun line => line <> EmptyString) (map status_record changes).
Proof. induction changes; constructor; [discriminate | assumption]. Qed.

End NameStatus.

Section EnumeratorRun.
Context `{Platform}.

(** [git_status_files] once inside the repository: the diff, the loop
    over its lines when it exited with status zero, and the way back. *)
Lemma git_status_files_run {B} repository_dir start_commit end_commit status
    (yield : B -> string -> M B) acc s s1 :
  os_chdir repository_dir s = (Ok tt, s1) ->
  git_status_files repository_dir start_commit end_commit status B yield acc s =
  let command := diff_command start_commit end_commit in
  let '(st, out, d) := sh command (cwd s1) (disk s1) in
  try_finally
    (fun s2 => if (st =? 0)%Z
               then for_lines (status_lines out) (status_step status yield) acc s2
               else (Raise (Exception (error_message command)), s2))
    (os_chdir (cwd s)) (spawned command st d s1).
Proof.
  intros H1. unfold git_status_files. rewrite (chdir_run _ _ _ _ H1).
  change (String.append "git diff --name-status "
            (String.append start_commit (String.append " " end_commit)))
    with (diff_command start_commit end_commit).
  cbv zeta. unfold try_finally, bind. rewrite execute_plain.
  destruct (sh _ (cwd s1) (disk s1)) as [[st out] d].
  destruct (st =? 0)%Z; reflexivity.
Qed.

(** The loop drained into a list can only end normally over lines none
    of which is empty. *)
Lemma for_lines_ok_inv status lines acc s files s' :
  for_lines lines (status_step status (fun acc x => ret (acc ++ [x]))) acc s
    = (Ok files, s') ->
  Forall (fun line => line <> EmptyString) lines.
Proof.
  revert acc s. induction lines as [|line lines IH]; intros acc s Hrun;
    constructor.
  - intros ->. cbn in Hrun. discriminate.
  - cbn [for_lines] in Hrun. apply bind_ok_inv in Hrun as (acc' & s1 & _ & Hrun).
    exact (IH _ _ Hrun).
Qed.

(** The loop of a [for] statement over the generator, on lines none of
    which is empty: its block runs on the selected names, in order. *)
Lemma for_lines_for_each status (block : string -> M unit) lines s :
  Forall (fun line => line <> EmptyString) lines ->
  for_lines lines (status_step status (fun _ x => block x)) tt s
  = for_each (selected status lines) block s.
Proof.
  intros Hall. revert s. induction Hall as [|line lines Hne _ IH]; intros s.
  - reflexivity.
  - cbn [for_lines]. unfold selected. cbn [filter]. unfold has_status at 1.
    unfold status_step at 1, bind.
    destruct line as [|c line]; [congruence|]. cbn [PyStr.item0].
    destruct (String.eqb (String c EmptyString) status).
    + cbn [map for_each]. unfold bind. cbv zeta.
      destruct (block _ s) as [[[]|e] s1]; [apply IH | reflexivity].
    + unfold ret at 1. apply IH.
Qed.

Lemma selected_stripped status lines :
  Forall (fun f => PyStr.strip f = f) (selected status lines).
Proof.
  unfold selected. induction (filter (has_status status) lines); constructor;
    [apply StripFacts.strip_idem | assumption].
Qed.

End EnumeratorRun.

(** The revision enumerator on the output git writes (lines 107-116):
    for a diff that is not empty, of changes whose paths have no white
    space at either end, [list] of the generator is the list of the paths
    that carry the status asked for, in the order of the diff. *)
Theorem git_status_files_parses `{Platform}
    (repository_dir start_commit end_commit status : string)
    (s s1 : State) (changes : list (ascii * string)) (d : Disk Ext) :
  PosixPath.isabs (cwd s) = true ->
  os_chdir repository_dir s = (Ok tt, s1) ->
  changes <> [] ->
  Forall plain_change changes ->
  sh (diff_command start_commit end_commit) (cwd s1) (disk s1)
    = (0%Z, name_status_output changes, d) ->
  FS.isdir (PosixPath.components (cwd s)) (fs d) = true ->
  py_list (git_status_files repository_dir start_commit end_commit status) s
  = (Ok (paths_with status changes),
     mkState (cwd s) d
       (trace s1 ++ [Spawn (diff_command start_commit end_commit) (cwd s1) 0;
                     Chdir (cwd s)])).
Proof.
  intros Habs H1 Hne Hall Hsh Hdir. unfold py_list.
  rewrite (git_status_files_run _ _ _ _ _ _ _ _ H1). cbv zeta.
  rewrite Hsh. cbn [Z.eqb]. unfold try_finally.
  rewrite (status_lines_name_status_output _ Hne Hall).
  change (status_step status (fun acc x => ret (acc ++ [x])))
    with (fun acc line =>
            match PyStr.item0 line with
            | None => raise (A := list string) IndexError
            | Some file_status =>
                let filename := PyStr.strip (PyStr.slice1 line) in
                if String.eqb file_status status then ret (acc ++ [filename])
                else ret acc
            end).
  rewrite (for_lines_selected _ _ _ _ (status_records_nonempty changes)).
  rewrite (selected_status_records _ _ Hall).
  rewrite os_chdir_run. unfold spawned. cbn [cwd disk trace fs app]. cbv zeta.
  rewrite (PathFacts.join_absolute _ _ Habs), Hdir, <- app_assoc. reflexivity.
Qed.

(** On the demo repository, between master and the feature branch: git
    reports one modified file. *)
Lemma git_status_files_parses_witness :
  let s := Demo.demo_state in
  let s1 := snd (os_chdir (H := Demo.demo) "/repo" s) in
  py_list (git_status_files "/repo" "master" "feature" "M") s
  = (Ok (paths_with "M" [("M"%char, "a.py")]),
     mkState (cwd s) (disk s)
       (trace s1 ++ [Spawn (diff_command "master" "feature") (cwd s1) 0;
                     Chdir (cwd s)])).
Proof.
  cbv zeta.
  apply (git_status_files_parses (H := Demo.demo)
           "/repo" "master" "feature" "M" Demo.demo_state
           (snd (os_chdir (H := Demo.demo) "/repo" Demo.demo_state))
           [("M"%char, "a.py")] (disk Demo.demo_state)); try reflexivity.
  - discriminate.
  - repeat constructor. discriminate.
Defined.

(** Whenever [list] of the revision enumerator returns (lines 107-116),
    the diff exited with status zero, none of the lines of its stripped
    output is empty, the list holds the names the status selects, and no
    name in it has white space at either end: a path that begins or ends
    with a blank is yielded without it. *)
Theorem git_status_files_yields_stripped `{Platform}
    (repository_dir start_commit end_commit status : string)
    (s s' : State) (files : list string) :
  py_list (git_status_files repository_dir start_commit end_commit status) s
    = (Ok files, s') ->
  Forall (fun f => PyStr.strip f = f) files
  /\ exists out d,
       sh (diff_command start_commit end_commit)
          (PosixPath.join (cwd s) repository_dir) (disk s) = (0%Z, out, d)
       /\ Forall (fun line => line <> EmptyString) (status_lines out)
       /\ files = selected status (status_lines out).
Proof.
  unfold py_list, git_status_files. intros Hrun.
  apply chdir_ok in Hrun as (s1 & s2 & H1 & Hq & _).
  apply os_chdir_ok in H1. subst s1.
  apply bind_ok_inv in Hq as (out & s3 & Hx & Hloop).
  apply execute_ok in Hx as (d & Hsh & ->). cbn [cwd disk] in Hsh.
  cbv zeta in Hloop. fold (status_lines out) in Hloop.
  pose proof (for_lines_ok_inv status _ _ _ _ _ Hloop) as Hall.
  rewrite (for_lines_selected _ _ _ _ Hall) in Hloop.
  injection Hloop as <- _. cbn [app].
  split; [apply selected_stripped|]. exists out, d. auto.
Qed.

(** On the demo repository, the modified files between master and the
    feature branch. *)
Lemma git_status_files_yields_stripped_witness :
  Forall (fun f => PyStr.strip f = f) ["a.py"]
  /\ exists out d,
       sh (H := Demo.demo) (diff_command "master" "feature")
          (PosixPath.join (cwd Demo.demo_state) "/repo") (disk Demo.demo_state)
         = (0%Z, out, d)
       /\ Forall (fun line => line <> EmptyString) (status_lines out)
       /\ ["a.py"] = selected "M" (status_lines out).
Proof.
  apply (git_status_files_yields_stripped (H := Demo.demo)
           "/repo" "master" "feature" "M" Demo.demo_state
           (snd (py_list (git_status_files "/repo" "master" "feature" "M")
                   Demo.demo_state)) ["a.py"]).
  reflexivity.
Defined.

(* ================================================================== *)
(** ** The loop over the modified files and the first enumeration *)
(* ================================================================== *)

(** A [for] statement over the revision enumerator (lines 107-116, as
    line 210 uses it), on a diff output without empty line and with a
    block that returns every time: the block runs once on each selected
    name, in the order of the diff, after the diff was spawned and with
    the process inside the repository; the return to the directory of
    the caller comes after the last run. *)
Theorem for_in_status_files `{Platform}
    (repository_dir start_commit end_commit status : string)
    (block : string -> M unit) (s s1 s2 : State) (out : string) (d : Disk Ext) :
  PosixPath.isabs (cwd s) = true ->
  os_chdir repository_dir s = (Ok tt, s1) ->
  sh (diff_command start_commit end_commit) (cwd s1) (disk s1) = (0%Z, out, d) ->
  Forall (fun line => line <> EmptyString) (status_lines out) ->
  for_each (selected status (status_lines out)) block
    (spawned (diff_command start_commit end_commit) 0 d s1) = (Ok tt, s2) ->
  FS.isdir (PosixPath.components (cwd s)) (fs (disk s2)) = true ->
  for_in (git_status_files repository_dir start_commit end_commit status) block s
  = (Ok tt, mkState (cwd s) (disk s2) (trace s2 ++ [Chdir (cwd s)])).
Proof.
  intros Habs H1 Hsh Hlines Hrun Hdir. unfold for_in.
  rewrite (git_status_files_run _ _ _ _ _ _ _ _ H1). cbv zeta.
  rewrite Hsh. cbn [Z.eqb]. unfold try_finally.
  rewrite (for_lines_for_each _ _ _ _ Hlines), Hrun.
  rewrite os_chdir_run. cbv zeta.
  rewrite (PathFacts.join_absolute _ _ Habs), Hdir. reflexivity.
Qed.

(** On the demo repository: the modified files between master and the
    feature branch, printed. *)
Lemma for_in_status_files_witness :
  let s := Demo.demo_state in
  let s1 := snd (os_chdir (H := Demo.demo) "/repo" s) in
  let s2 := snd (print "a.py" (spawned (diff_command "master" "feature") 0
                                 (disk s) s1)) in
  for_in (git_status_files "/repo" "master" "feature" "M") print s
  = (Ok tt, mkState (cwd s) (disk s2) (trace s2 ++ [Chdir (cwd s)])).
Proof.
  cbv zeta.
  apply (for_in_status_files (H := Demo.demo)
           "/repo" "master" "feature" "M" print Demo.demo_state
           (snd (os_chdir (H := Demo.demo) "/repo" Demo.demo_state))
           _ (Demo.name_status (Demo.tree_of Demo.Master) (Demo.tree_of Demo.Feature))
           (disk Demo.demo_state)); try reflexivity.
  vm_compute. repeat constructor; discriminate.
Defined.

(** [git_review8] between two revisions without difference (lines
    203 and 111-113): the first enumeration meets the one empty line of
    the stripped output and raises [IndexError]; the diff is the only
    child spawned, nothing is printed, no count is taken and no verdict
    is given. *)
Theorem git_review8_blank_diff `{Platform}
    (repository_dir start_commit end_commit : string)
    (s s1 : State) (out : string) (d : Disk Ext) :
  os_chdir repository_dir s = (Ok tt, s1) ->
  sh (diff_command start_commit end_commit) (cwd s1) (disk s1) = (0%Z, out, d) ->
  PyStr.strip out = EmptyString ->
  let '(r, s') := git_review8 repository_dir start_commit end_commit s in
  disk s' = d
  /\ trace s' = trace s1 ++ [Spawn (diff_command start_commit end_commit) (cwd s1) 0;
                             Chdir (PosixPath.join (cwd s1) (cwd s))]
  /\ (r = Raise IndexError \/ r = Raise (OSError (cwd s))).
Proof.
  intros H1 Hsh Hblank.
  assert (Hlist :
    py_list (git_deleted_files repository_dir start_commit end_commit) s
    = let '(rc, s3) := os_chdir (cwd s)
                         (spawned (diff_command start_commit end_commit) 0 d s1) in
      (match rc with Ok _ => Raise IndexError | Raise e => Raise e end, s3)).
  { unfold py_list, git_deleted_files.
    rewrite (git_status_files_run _ _ _ _ _ _ _ _ H1). cbv zeta.
    rewrite Hsh. cbn [Z.eqb]. unfold try_finally, status_lines.
    rewrite Hblank. cbn [PyStr.split for_lines]. unfold bind.
    unfold status_step at 1. cbn [PyStr.item0]. unfold raise.
    destruct (os_chdir (cwd s)
                (spawned (diff_command start_commit end_commit) 0 d s1))
      as [[[]|e] s3]; reflexivity. }
  unfold git_review8, review8_counts.
  rewrite os_chdir_run in Hlist. cbv zeta in Hlist.
  unfold spawned in Hlist. cbn [cwd disk trace fs] in Hlist.
  destruct (FS.isdir _ (fs d));
    rewrite (bind_raise _ _ _ _ _ (bind_raise _ _ _ _ _ Hlist));
    cbn [disk trace]; rewrite <- app_assoc; auto.
Qed.

(** On the demo repository: master against itself. *)
Lemma git_review8_blank_diff_witness :
  let s := Demo.demo_state in
  let s1 := snd (os_chdir (H := Demo.demo) "/repo" s) in
  let '(r, s') := git_review8 "/repo" "master" "master" s in
  disk s' = disk s
  /\ trace s' = trace s1 ++ [Spawn (diff_command "master" "master") (cwd s1) 0;
                             Chdir (PosixPath.join (cwd s1) (cwd s))]
  /\ (r = Raise IndexError \/ r = Raise (OSError (cwd s))).
Proof.
  cbv zeta.
  apply (git_review8_blank_diff (H := Demo.demo) "/repo" "master" "master"
           Demo.demo_state
           (snd (os_chdir (H := Demo.demo) "/repo" Demo.demo_state))
           EmptyString (disk Demo.demo_state)); reflexivity.
Defined.

(** [git_checkout] with a repository path that the repository itself
    does not resolve (lines 180-182 and 174): the scope enters the
    repository, and [git_branch] then changes to the same path again,
    from inside.  For a relative path that names nothing there, that
    second change fails: no child is spawned, the block never runs, and
    the scope raises the [OSError] of the path from the directory of the
    caller. *)
Theorem git_checkout_relative_repository `{Platform} {A}
    (repository_dir commit : string) (block : M A) (s s1 : State) :
  PosixPath.isabs (cwd s) = true ->
  FS.isdir (PosixPath.components (cwd s)) (fs (disk s)) = true ->
  os_chdir repository_dir s = (Ok tt, s1) ->
  FS.isdir (PosixPath.components (PosixPath.join (cwd s1) repository_dir))
    (fs (disk s1)) = false ->
  let '(r, s') := git_checkout repository_dir commit block s in
  r = Raise (OSError repository_dir)
  /\ cwd s' = cwd s /\ disk s' = disk s
  /\ spawns (trace s') = spawns (trace s).
Proof.
  intros Habs Hhome H1 Hnone. pose proof H1 as H1'.
  rewrite os_chdir_run in H1'. cbv zeta in H1'.
  destruct (FS.isdir (PosixPath.components (PosixPath.join (cwd s) repository_dir))
              (fs (disk s))) eqn:Hrepo; [|discriminate].
  assert (Hc1 : cwd s1 = PosixPath.join (cwd s) repository_dir)
    by (injection H1' as <-; reflexivity).
  assert (Hd1 : disk s1 = disk s) by (injection H1' as <-; reflexivity).
  assert (Ht1 : spawns (trace s1) = spawns (trace s)).
  { injection H1' as <-. cbn [trace]. rewrite spawns_app. cbn.
    now rewrite app_nil_r. }
  clear H1'.
  pose proof (PathFacts.isabs_join (cwd s) repository_dir Habs) as Habs1.
  rewrite <- Hc1 in Habs1, Hrepo. rewrite <- Hd1 in Hrepo.
  assert (Hb : git_branch repository_dir s1
               = (Raise (OSError repository_dir),
                  mkState (cwd s1) (disk s1)
                    (trace s1 ++ [Chdir (PosixPath.join (cwd s1) repository_dir);
                                  Chdir (cwd s1)]))).
  { unfold git_branch, chdir, os_getcwd, bind, try_finally.
    rewrite os_chdir_run. cbv zeta. rewrite Hnone.
    rewrite os_chdir_run. cbv zeta. cbn [cwd disk fs trace].
    rewrite (PathFacts.join_absolute _ _ Habs1), Hrepo, <- app_assoc.
    reflexivity. }
  unfold git_checkout. rewrite (chdir_run _ _ _ _ H1). unfold try_finally.
  rewrite (bind_raise _ _ _ _ _ Hb). rewrite os_chdir_run. cbv zeta.
  cbn [cwd disk fs trace]. rewrite (PathFacts.join_absolute _ _ Habs), Hd1, Hhome.
  cbn [cwd disk trace]. repeat split.
  rewrite !spawns_app, Ht1. cbn. now rewrite !app_nil_r.
Qed.

(** On the demo, from the root: the repository named [repo]. *)
Lemma git_checkout_relative_repository_witness :
  let s := mkState (H := Demo.demo) "/" (disk Demo.demo_state) [] in
  let '(r, s') := git_checkout "repo" "feature" (ret tt) s in
  r = Raise (OSError "repo")
  /\ cwd s' = cwd s /\ disk s' = disk s
  /\ spawns (trace s') = spawns (trace s).
Proof.
  cbv zeta.
  apply (git_checkout_relative_repository (H := Demo.demo) "repo" "feature" (ret tt)
           (mkState (H := Demo.demo) "/" (disk Demo.demo_state) [])
           (snd (os_chdir (H := Demo.demo) "repo"
                   (mkState (H := Demo.demo) "/" (disk Demo.demo_state) []))));
    reflexivity.
Defined.

(* ================================================================== *)
(** ** The comparator when the diff tool ends, well or not *)
(* ================================================================== *)

Section CleanUp.
Context `{Platform}.

(** The block of the temporary directory in [bytecode_diff] (lines
    163-169), once the nested scope has made the copy: the diff tool,
    then the removal of the directory. *)
Lemma compare_in_temporary_directory filename repository_dir start_commit
    s3 temp_dir t1 t2 :
  let start_file := PosixPath.join temp_dir (PosixPath.basename filename) in
  let end_file := PosixPath.join repository_dir filename in
  tempfile_mkdtemp s3 = (Ok temp_dir, t1) ->
  git_checkout repository_dir start_commit (shutil_copy2 end_file start_file) t1
    = (Ok tt, t2) ->
  temporary_directory (fun temp_dir =>
      let start_file := PosixPath.join temp_dir (PosixPath.basename filename) in
      let end_file := PosixPath.join repository_dir filename in
      git_checkout repository_dir start_commit (shutil_copy2 end_file start_file) ;;
      diff <- execute (pydiff_command start_file end_file) [] ;;
      ret diff)%py s3
  = let '(status, out, d) :=
        sh (pydiff_command start_file end_file) (cwd t2) (disk t2) in
    let '(rr, t4) := shutil_rmtree temp_dir
                       (spawned (pydiff_command start_file end_file) status d t2) in
    (match rr with
     | Raise e => Raise e
     | Ok _ => if (status =? 0)%Z then Ok out
               else Raise (Exception (error_message
                                        (pydiff_command start_file end_file)))
     end, t4).
Proof.
  cbv zeta. intros Hm Hn. unfold temporary_directory.
  rewrite (bind_ok _ _ _ _ _ Hm). unfold try_finally.
  rewrite (bind_ok _ _ _ _ _ Hn). unfold bind. rewrite execute_plain.
  destruct (sh _ (cwd t2) (disk t2)) as [[status out] d].
  destruct (status =? 0)%Z; unfold ret;
    destruct (shutil_rmtree temp_dir _) as [[[]|e] t4]; reflexivity.
Qed.

End CleanUp.

(** [bytecode_diff] from the run of the diff tool on (lines 160-169),
    whatever its exit status: the temporary directory is removed first,
    then the branch recorded on entry is checked out again (when the
    scope had left it), then the process returns to the directory of the
    caller.  When these three succeed the outcome is the one of the diff
    tool: its output for status zero, the error of [execute] otherwise. *)
Theorem bytecode_diff_cleans_up `{Platform}
    (filename repository_dir start_commit end_commit backup temp_dir : string)
    (s s1 s2 s3 t1 t2 : State) :
  let start_file := PosixPath.join temp_dir (PosixPath.basename filename) in
  let end_file := PosixPath.join repository_dir filename in
  let command := pydiff_command start_file end_file in
  os_chdir repository_dir s = (Ok tt, s1) ->
  git_branch repository_dir s1 = (Ok backup, s2) ->
  scope_entry backup end_commit s2 s3 ->
  tempfile_mkdtemp s3 = (Ok temp_dir, t1) ->
  git_checkout repository_dir start_commit (shutil_copy2 end_file start_file) t1
    = (Ok tt, t2) ->
  let '(status, out, d) := sh command (cwd t2) (disk t2) in
  let '(rr, t4) := shutil_rmtree temp_dir (spawned command status d t2) in
  let '(st5, _, d5) := sh (checkout_command backup) (cwd t4) (disk t4) in
  let '(r, s') := bytecode_diff filename repository_dir start_commit end_commit s in
  let stays := String.eqb backup end_commit in
  let home := PosixPath.join (cwd t4) (cwd s) in
  FS.isdir (PosixPath.components temp_dir) (fs (disk t4)) = false
  /\ trace s' = trace t2 ++ [Spawn command (cwd t2) status; Rmtree temp_dir]
                  ++ (if stays then []
                      else [Spawn (checkout_command backup) (cwd t4) st5])
                  ++ [Chdir home]
  /\ disk s' = (if stays then disk t4 else d5)
  /\ (status <> 0%Z -> exists e, r = Raise e)
  /\ (rr = Ok tt -> (stays = false -> st5 = 0%Z) ->
      FS.isdir (PosixPath.components home) (fs (disk s')) = true ->
      r = if (status =? 0)%Z then Ok out
          else Raise (Exception (error_message command))).
Proof.
  cbv zeta. intros H1 H2 H3 Hm Hn.
  pose proof (compare_in_temporary_directory filename repository_dir start_commit
                s3 temp_dir t1 t2 Hm Hn) as Htd. cbv zeta in Htd.
  destruct (mkdtemp_path _ _ _ Hm) as (Habs & _ & Hne & _).
  destruct (sh (pydiff_command _ _) (cwd t2) (disk t2)) as [[status out] d].
  destruct (shutil_rmtree temp_dir _) as [rr t4] eqn:Er.
  destruct (rmtree_gone _ _ _ _ Habs Hne Er) as (Hgone & _ & _ & Hc4 & _ & Ht4).
  unfold spawned in Ht4. cbn [trace] in Ht4.
  unfold bytecode_diff. rewrite (git_checkout_run _ _ _ _ _ _ _ H1 H2).
  unfold scope_entry in H3.
  destruct (String.eqb backup end_commit) eqn:E; cbn [negb].
  - subst s3. destruct (sh (checkout_command backup) (cwd t4) (disk t4))
      as [[st5 o5] d5].
    unfold try_finally. rewrite Htd. rewrite os_chdir_run. cbv zeta.
    destruct (FS.isdir (PosixPath.components (PosixPath.join (cwd t4) (cwd s)))
                (fs (disk t4))) eqn:Ed; cbv beta iota; cbn [disk trace];
      rewrite ?Ed, Ht4, <- !app_assoc; cbn [app];
      (split; [exact Hgone|]).
    + repeat split; auto.
      * intros Hst. apply Z.eqb_neq in Hst. rewrite Hst. destruct rr; eauto.
      * intros -> _ _. reflexivity.
    + repeat split; eauto. intros _ _ Hd. discriminate.
  - destruct H3 as (o3 & d3 & Hsh3 & ->).
    assert (Hx : execute (checkout_command end_commit) [] s2
                 = (Ok o3, spawned (checkout_command end_commit) 0 d3 s2)).
    { rewrite execute_plain, Hsh3. reflexivity. }
    unfold try_finally. rewrite (bind_ok _ _ _ _ _ Hx), Htd, restore_run.
    destruct (sh (checkout_command backup) (cwd t4) (disk t4))
      as [[st5 o5] d5].
    destruct (Z.eqb_spec st5 0) as [->|Hs5]; cbv beta iota;
      rewrite os_chdir_run; cbv zeta; unfold spawned; cbn [cwd disk trace fs];
      destruct (FS.isdir (PosixPath.components (PosixPath.join (cwd t4) (cwd s)))
                  (fs d5)) eqn:Ed; cbv beta iota; cbn [disk trace];
      rewrite ?Ed, Ht4, <- !app_assoc; cbn [app];
      (split; [exact Hgone|]); repeat split; auto.
    all: try (intros Hst; apply Z.eqb_neq in Hst; rewrite ?Hst;
              destruct rr; eauto; fail).
    all: intros -> Hz Hd;
      first [discriminate | specialize (Hz eq_refl); contradiction | reflexivity].
Qed.

(** On the demo repository: [a.py] between master and the feature
    branch, from master. *)
Lemma bytecode_diff_cleans_up_witness :
  let s := Demo.demo_state in
  let s3 := snd (execute (H := Demo.demo) (checkout_command "feature") []
                   (snd (git_branch "/repo" (snd (os_chdir "/repo" s))))) in
  let t1 := snd (tempfile_mkdtemp s3) in
  let start_file := PosixPath.join "/tmp/tmp0" (PosixPath.basename "a.py") in
  let end_file := PosixPath.join "/repo" "a.py" in
  let command := pydiff_command start_file end_file in
  let t2 := snd (git_checkout "/repo" "master" (shutil_copy2 end_file start_file) t1) in
  let '(status, out, d) := sh command (cwd t2) (disk t2) in
  let '(rr, t4) := shutil_rmtree "/tmp/tmp0" (spawned command status d t2) in
  let '(st5, _, d5) := sh (checkout_command "master") (cwd t4) (disk t4) in
  let '(r, s') := bytecode_diff "a.py" "/repo" "master" "feature" s in
  let stays := String.eqb "master" "feature" in
  let home := PosixPath.join (cwd t4) (cwd s) in
  FS.isdir (PosixPath.components "/tmp/tmp0") (fs (disk t4)) = false
  /\ trace s' = trace t2 ++ [Spawn command (cwd t2) status; Rmtree "/tmp/tmp0"]
                  ++ (if stays then []
                      else [Spawn (checkout_command "master") (cwd t4) st5])
                  ++ [Chdir home]
  /\ disk s' = (if stays then disk t4 else d5)
  /\ (status <> 0%Z -> exists e, r = Raise e)
  /\ (rr = Ok tt -> (stays = false -> st5 = 0%Z) ->
      FS.isdir (PosixPath.components home) (fs (disk s')) = true ->
      r = if (status =? 0)%Z then Ok out
          else Raise (Exception (error_message command))).
Proof.
  cbv zeta.
  apply (bytecode_diff_cleans_up (H := Demo.demo)
           "a.py" "/repo" "master" "feature" "master" "/tmp/tmp0"
           Demo.demo_state
           (snd (os_chdir (H := Demo.demo) "/repo" Demo.demo_state))
           (snd (git_branch (H := Demo.demo) "/repo"
                   (snd (os_chdir (H := Demo.demo) "/repo" Demo.demo_state))))
           (snd (execute (H := Demo.demo) (checkout_command "feature") []
                   (snd (git_branch (H := Demo.demo) "/repo"
                           (snd (os_chdir (H := Demo.demo) "/repo" Demo.demo_state))))))
           (snd (tempfile_mkdtemp (H := Demo.demo)
                   (snd (execute (H := Demo.demo) (checkout_command "feature") []
                           (snd (git_branch (H := Demo.demo) "/repo"
                                   (snd (os_chdir (H := Demo.demo) "/repo"
                                           Demo.demo_state))))))))
           _); try (vm_compute; reflexivity).
  unfold scope_entry, checked_out. cbn [String.eqb Ascii.eqb Bool.eqb].
  do 2 eexists. split; vm_compute; reflexivity.
Defined.

(* ================================================================== *)
(** ** The count of one revision *)
(* ================================================================== *)

Section Counting.
Context `{Platform}.

(** [flake8_count], run: the pipeline is the only child, and the count
    is the number of lines its producer wrote. *)
Lemma flake8_count_run path s :
  Shell.plain path = true ->
  flake8_count path s =
  let '(_, out, d) := tool (flake8_command path) (cwd s) (disk s) in
  (Ok (Z.of_nat (PyStr.count_char PyStr.LF out)),
   spawned (flake8_pipeline path) 0 d s).
Proof.
  intros Hplain. unfold flake8_count.
  change (String.append "flake8 " (String.append path " | wc -l"))
    with (flake8_pipeline path).
  unfold bind. rewrite execute_plain, (sh_pipeline _ _ _ Hplain).
  destruct (tool (flake8_command path) (cwd s) (disk s)) as [[status out] d].
  cbn [Z.eqb]. unfold wc_l. rewrite PyStrFacts.int_of_line. reflexivity.
Qed.

End Counting.

(** A count of [git_review8] (lines 222-225 and 226-229), for a
    repository path of characters the shell takes literally and blanks,
    with a git that keeps its contract and a style checker that moves no
    branch:
    whenever the count returns, the checker ran in the repository with the
    revision asked for checked out, between the checkout of that revision
    and the checkout of the branch found on entry (neither is spawned
    when the revision was checked out already); the count is the number
    of lines the checker wrote and was printed with the name of the
    revision; the branch found on entry is checked out again and the
    process is back in the directory of the caller. *)
Theorem count_at_counts_revision `{Platform}
    (head : Ext -> string) (known : string -> Prop) (repository : FS.path)
    (repository_dir commit : string) (s s' : State) (n : Z) :
  git_contract head known repository ->
  Shell.plain repository_dir = true ->
  (forall c d status out d',
      tool (flake8_command repository_dir) c d = (status, out, d') ->
      head (ext d') = head (ext d)) ->
  PosixPath.isabs (cwd s) = true ->
  known commit ->
  known (head (ext (disk s))) ->
  count_at repository_dir commit s = (Ok n, s') ->
  cwd s' = cwd s
  /\ head (ext (disk s')) = head (ext (disk s))
  /\ spawns (trace s') = spawns (trace s) ++
       scope_commands (head (ext (disk s))) commit [flake8_pipeline repository_dir]
  /\ In (Print (String.append (PyStr.str_of_int n)
                  (String.append " flake8 errors in " commit))) (trace s')
  /\ exists d status out d',
       head (ext d) = commit
       /\ tool (flake8_command repository_dir)
            (PosixPath.join (cwd s) repository_dir) d = (status, out, d')
       /\ n = Z.of_nat (PyStr.count_char PyStr.LF out).
Proof.
  intros Hgit Hplain Hflake Habs Hk Hk0 Hrun. unfold count_at in Hrun.
  apply git_checkout_ok in Hrun
    as (s1 & reported & s2 & s3 & s4 & s5 & H1 & H2 & H3 & Hb & H5 & H6).
  destruct (scope_way_in head known repository Hgit _ _ _ _ _ _ _ Habs Hk H1 H2 H3)
    as (Hr & Hc3 & _ & Hh3 & _ & Hs3 & _).
  apply bind_ok_inv in Hb as (n0 & sa & Hf & Hb).
  apply bind_ok_inv in Hb as ([] & sb & Hp & [= -> <-]).
  rewrite (flake8_count_run _ _ Hplain) in Hf.
  destruct (tool (flake8_command repository_dir) (cwd s3) (disk s3))
    as [[status out] d'] eqn:Et.
  injection Hf as <- <-. unfold print in Hp. injection Hp as <-.
  assert (Hh4 : head (ext (disk (log (Print (String.append
                   (PyStr.str_of_int (Z.of_nat (PyStr.count_char PyStr.LF out)))
                   (String.append " flake8 errors in " commit)))
                   (spawned (flake8_pipeline repository_dir) 0 d' s3)))) = commit).
  { cbn [log disk spawned]. rewrite (Hflake _ _ _ _ _ Et). exact Hh3. }
  subst reported.
  destruct (scope_way_out head known repository Hgit _ _ _ _ _ _ Habs Hk0 Hh4 H5 H6)
    as (Hc & Hh & _ & Hs & Hi).
  repeat split; auto.
  - rewrite Hs. cbn [log trace spawned]. rewrite !spawns_app, Hs3.
    cbn [spawns app]. unfold scope_commands.
    destruct (String.eqb (head (ext (disk s))) commit);
      rewrite <- !app_assoc; reflexivity.
  - apply Hi. cbn [log trace]. apply in_or_app. right. now left.
  - exists (disk s3), status, out, d'. rewrite <- Hc3. auto.
Qed.

(** On the demo repository: the count of the feature branch, from
    master. *)
Lemma count_at_counts_revision_witness :
  let s := Demo.demo_state in
  let s' := snd (count_at (H := Demo.demo) "/repo" "feature" s) in
  cwd s' = cwd s
  /\ Demo.branch_name (ext (disk s')) = Demo.branch_name (ext (disk s))
  /\ spawns (trace s') = spawns (trace s) ++
       scope_commands (Demo.branch_name (ext (disk s))) "feature"
         [flake8_pipeline "/repo"]
  /\ In (Print (String.append (PyStr.str_of_int 0)
                  (String.append " flake8 errors in " "feature"))) (trace s')
  /\ exists (d : Disk (@Ext Demo.demo)) status out d',
       Demo.branch_name (ext d) = "feature"
       /\ tool (Platform := Demo.demo) (flake8_command "/repo")
            (PosixPath.join (cwd s) "/repo") d = (status, out, d')
       /\ 0%Z = Z.of_nat (PyStr.count_char PyStr.LF out).
Proof.
  cbv zeta.
  apply (count_at_counts_revision (H := Demo.demo)
           Demo.branch_name Demo.demo_known ["repo"] "/repo" "feature"
           Demo.demo_state
           (snd (count_at (H := Demo.demo) "/repo" "feature" Demo.demo_state))
           0%Z DemoFacts.demo_git).
  - reflexivity.
  - intros c d status out d' Et. vm_compute in Et.
    injection Et as _ _ <-. reflexivity.
  - reflexivity.
  - now right.
  - now left.
  - vm_compute. reflexivity.
Defined.

(* ================================================================== *)
(** ** The entry point *)
(* ================================================================== *)

(** [main] (lines 134-157), started in an absolute directory that
    stands: whatever the command line holds, the branch query is spawned
    first, in the directory the program was started in.  When the query
    fails [main] raises its error and the command line is never read;
    when it succeeds the command line is read with the current branch as
    the default feature and [master] as the default reference, and the
    review runs in the starting directory from the reference to the
    feature. *)
Theorem main_queries_branch_first `{Platform}
    (parse_args : string -> string -> M (string * string)) (s : State) :
  PosixPath.isabs (cwd s) = true ->
  FS.isdir (PosixPath.components (cwd s)) (fs (disk s)) = true ->
  let '(status, out, d) := sh branch_query (cwd s) (disk s) in
  FS.isdir (PosixPath.components (cwd s)) (fs d) = true ->
  let s2 := mkState (cwd s) d
              (trace s ++ [Chdir (cwd s); Spawn branch_query (cwd s) status;
                           Chdir (cwd s)]) in
  main parse_args s =
  if (status =? 0)%Z then
    bind (parse_args (PyStr.strip out) "master")
      (fun args => git_review8 (cwd s) (snd args) (fst args)) s2
  else (Raise (Exception (error_message branch_query)), s2).
Proof.
  intros Habs Hdir.
  assert (H1 : os_chdir (cwd s) s
               = (Ok tt, mkState (cwd s) (disk s) (trace s ++ [Chdir (cwd s)]))).
  { rewrite os_chdir_run. cbv zeta.
    now rewrite (PathFacts.join_absolute _ _ Habs), Hdir. }
  pose proof (git_branch_run (cwd s) s _ H1) as Hb. cbn [cwd disk] in Hb.
  destruct (sh branch_query (cwd s) (disk s)) as [[status out] d].
  intros Hd. rewrite os_chdir_run in Hb. cbv zeta in Hb.
  unfold spawned in Hb. cbn [cwd disk trace fs] in Hb.
  rewrite (PathFacts.join_absolute _ _ Habs), Hd in Hb. cbv zeta.
  unfold main, os_getcwd. unfold bind at 1. unfold bind at 1. rewrite Hb.
  destruct (status =? 0)%Z; rewrite <- !app_assoc; reflexivity.
Qed.

(** On the demo, started in the repository with an empty command line. *)
Lemma main_queries_branch_first_witness :
  let parse_args := fun feature reference : string =>
                      ret (H := Demo.demo) (feature, reference) in
  let s := mkState (H := Demo.demo) "/repo" (disk Demo.demo_state) [] in
  let '(status, out, d) := sh branch_query (cwd s) (disk s) in
  FS.isdir (PosixPath.components (cwd s)) (fs d) = true ->
  let s2 := mkState (cwd s) d
              (trace s ++ [Chdir (cwd s); Spawn branch_query (cwd s) status;
                           Chdir (cwd s)]) in
  main parse_args s =
  if (status =? 0)%Z then
    bind (parse_args (PyStr.strip out) "master")
      (fun args => git_review8 (cwd s) (snd args) (fst args)) s2
  else (Raise (Exception (error_message branch_query)), s2).
Proof.
  cbv zeta.
  apply (main_queries_branch_first (H := Demo.demo)
           (fun feature reference : string => ret (H := Demo.demo) (feature, reference))
           (mkState (H := Demo.demo) "/repo" (disk Demo.demo_state) []));
    reflexivity.
Defined.

(* ================================================================== *)
(** ** What a whole review leaves behind *)
(* ================================================================== *)

Section Keeping.
Context `{Platform}.
Variable head : Ext -> string.
Variable known : string -> Prop.
Variable repository : FS.path.
Hypothesis git : git_contract head known repository.

















End Keeping.


Module DemoKeeps.
Import Demo.







End DemoKeeps.


(* ================================================================== *)
(** ** The temporary directory and the rest of the disk *)
(* ================================================================== *)

Section Confined.
Context `{Platform}.

(** [shutil.rmtree] of an absolute path touches nothing along a path
    that parts ways with it. *)
Lemma rmtree_frame path s r s' q :
  PosixPath.isabs path = true ->
  shutil_rmtree path s = (r, s') ->
  FS.diverge (PosixPath.components path) q = true ->
  FS.lookup q (fs (disk s')) = FS.lookup q (fs (disk s)).
Proof.
  intros Habs Hr Hq. unfold shutil_rmtree in Hr.
  rewrite (PathFacts.join_absolute _ _ Habs) in Hr.
  destruct (FS.isdir _ (fs (disk s))); [|now injection Hr as _ <-].
  destruct (FS.put _ None (fs (disk s))) as [t|] eqn:Ep;
    injection Hr as _ <-; [|reflexivity].
  cbn [disk fs]. apply (FSFacts.lookup_put_diverge _ _ _ _ _ Ep Hq).
Qed.

End Confined.

(** The scoped temporary directory and the rest of the disk (lines
    61-68): on entry and on exit the scope changes nothing along any path
    that parts ways with the path of its directory, and nothing of what
    the external programs keep for themselves; what differs there after
    the scope is what the block did. *)
Theorem temporary_directory_confined `{Platform} {A}
    (block : string -> M A) (s s1 : State) (path : string) :
  tempfile_mkdtemp s = (Ok path, s1) ->
  let '(r1, s2) := block path s1 in
  let '(r, s') := temporary_directory block s in
  ext (disk s1) = ext (disk s)
  /\ ext (disk s') = ext (disk s2)
  /\ forall q, FS.diverge (PosixPath.components path) q = true ->
       FS.lookup q (fs (disk s1)) = FS.lookup q (fs (disk s))
       /\ FS.lookup q (fs (disk s')) = FS.lookup q (fs (disk s2)).
Proof.
  intros Hm.
  destruct (mkdtemp_path _ _ _ Hm) as (Habs & _ & Hne & _ & _ & He1 & _).
  assert (Hin : forall q, FS.diverge (PosixPath.components path) q = true ->
                  FS.lookup q (fs (disk s1)) = FS.lookup q (fs (disk s))).
  { intros q Hq. pose proof Hm as Hm'. unfold tempfile_mkdtemp in Hm'.
    destruct (FS.lookup _ (fs (disk s))); [discriminate|].
    destruct (FS.put _ _ (fs (disk s))) as [t|] eqn:Ep; [|discriminate].
    injection Hm' as <- <-. cbn [disk fs].
    apply (FSFacts.lookup_put_diverge _ _ _ _ _ Ep Hq). }
  unfold temporary_directory. rewrite (bind_ok _ _ _ _ _ Hm). unfold try_finally.
  destruct (block path s1) as [r1 s2].
  destruct (shutil_rmtree path s2) as [rr s'] eqn:Er.
  destruct (rmtree_gone _ _ _ _ Habs Hne Er) as (_ & _ & _ & _ & He' & _).
  assert (Hout : forall q, FS.diverge (PosixPath.components path) q = true ->
                   FS.lookup q (fs (disk s')) = FS.lookup q (fs (disk s2)))
    by (intros q Hq; apply (rmtree_frame _ _ _ _ _ Habs Er Hq)).
  destruct rr as [[]|e]; repeat split; auto.
Qed.

(** On the demo: the repository, around a scope whose block does
    nothing. *)
Lemma temporary_directory_confined_witness :
  let s := Demo.demo_state in
  let s1 := snd (tempfile_mkdtemp (H := Demo.demo) s) in
  let block := fun _ : string => ret (H := Demo.demo) tt in
  let '(r1, s2) := block "/tmp/tmp0" s1 in
  let '(r, s') := temporary_directory block s in
  ext (disk s1) = ext (disk s)
  /\ ext (disk s') = ext (disk s2)
  /\ forall q, FS.diverge (PosixPath.components "/tmp/tmp0") q = true ->
       FS.lookup q (fs (disk s1)) = FS.lookup q (fs (disk s))
       /\ FS.lookup q (fs (disk s')) = FS.lookup q (fs (disk s2)).
Proof.
  cbv zeta.
  apply (temporary_directory_confined (H := Demo.demo)
           (fun _ : string => ret (H := Demo.demo) tt)
           Demo.demo_state (snd (tempfile_mkdtemp (H := Demo.demo) Demo.demo_state))
           "/tmp/tmp0").
  vm_compute. reflexivity.
Defined.
